(** * receipt-processor: a shallow embedding of [receipt-processor.go]

    The program scores a purchase receipt with seven additive rules
    ([calculatePoints]), stores the score under a generated identifier
    ([processReceiptHandler]) and serves it back ([getPointsHandler]).

    The file has three parts.  The first embeds the program: Go's [int] and
    [float64], the standard-library functions the program calls
    ([unicode.IsLetter], [strings.TrimSpace], [strconv.ParseFloat],
    [math.Trunc], [math.Mod], [math.Ceil], [time.Parse], the struct decoder of
    [encoding/json]) and then the three functions of the program itself.
    The second holds the receipts, documents and predicates the statements
    speak of.  The third states and proves the properties. *)

From Stdlib Require Import ZArith List Bool Ascii String Lia.
From Stdlib Require Import SpecFloat Zpower.
From stdpp Require Import gmap strings.
Import ListNotations.

Local Open Scope Z_scope.

(** ** What the Go specification leaves to the implementation

    Two things the program's result depends on are not fixed by the source:
    the Unicode range tables behind [unicode.IsLetter] and [unicode.IsDigit]
    (only the Latin-1 part, which Go answers from a fixed 256-entry table, is
    written out below), and the value of a [float64]-to-[int] conversion whose
    operand does not fit ("the conversion succeeds but the result value is
    implementation-dependent").  Both are fields of a [Platform]. *)
Record Platform := {
  (** [unicode.Letter], consulted for runes above U+00FF *)
  unicode_Letter : Z -> bool;
  (** [unicode.Digit], consulted for runes above U+00FF *)
  unicode_Digit : Z -> bool;
  (** the result of [int(f)] when [f] is NaN, infinite or out of range *)
  int_of_unrepresentable : spec_float -> Z
}.

(** ** [int]: 64-bit two's complement, as on amd64 and arm64 *)
Module GoInt.

Definition min_int : Z := - 2 ^ 63.
Definition max_int : Z := 2 ^ 63 - 1.

Definition in_range (z : Z) : bool := (min_int <=? z) && (z <=? max_int).

(** Reduction of a mathematical integer to its [int] representative. *)
Definition wrap (z : Z) : Z := (z + 2 ^ 63) mod 2 ^ 64 - 2 ^ 63.

Definition add (a b : Z) : Z := wrap (a + b).
Definition mul (a b : Z) : Z := wrap (a * b).

(** [a / b] and [a % b] truncate toward zero. *)
Definition quo (a b : Z) : Z := wrap (Z.quot a b).
Definition rem (a b : Z) : Z := Z.rem a b.

End GoInt.

(** ** [float64]: IEEE 754 binary64, round to nearest even *)
Module GoFloat.

Definition prec : Z := 53.
Definition emax : Z := 1024.

Definition float64 := spec_float.

Definition nan : float64 := S754_nan.
Definition inf (neg : bool) : float64 := S754_infinity neg.

Definition is_finite (x : float64) : bool :=
  match x with
  | S754_zero _ | S754_finite _ _ _ => true
  | _ => false
  end.

(** The float with sign [s] and magnitude [m * 2^e], for a magnitude that
    needs no rounding: the mantissa is only shifted left to its canonical
    position. *)
Definition normalize_exact (s : bool) (m : positive) (e : Z) : float64 :=
  let '(m', e') :=
    shl_align m e (fexp prec emax (Zpos (digits2_pos m) + e)) in
  S754_finite s m' e'.

(** [n * 2^e], correctly rounded. *)
Definition of_scaled (neg : bool) (n : positive) (e : Z) : float64 :=
  binary_round prec emax neg n e.

(** [n / d], correctly rounded. *)
Definition of_ratio (neg : bool) (n d : positive) : float64 :=
  SFdiv prec emax (S754_finite neg n 0) (S754_finite false d 0).

Definition mul (x y : float64) : float64 := SFmul prec emax x y.

(** [x == y] *)
Definition eqb (x y : float64) : bool := SFeqb x y.
(** [x <= y] *)
Definition leb (x y : float64) : bool := SFleb x y.

Definition zero : float64 := S754_zero false.
(** The constants [0.25] and [0.2] of the source, as [float64]. *)
Definition c0_25 : float64 := of_ratio false 1 4.
Definition c0_2 : float64 := of_ratio false 1 5.

(** The integer part of a finite value, rounded toward zero. *)
Definition truncZ (x : float64) : Z :=
  match x with
  | S754_finite s m e =>
      let a :=
        match e with
        | Z0 => Zpos m
        | Zpos p => Zpos m * 2 ^ Zpos p
        | Zneg p => Zpos m / 2 ^ Zpos p
        end in
      if s then - a else a
  | _ => 0
  end.

(** The least integer not below a finite value. *)
Definition ceilZ (x : float64) : Z :=
  match x with
  | S754_finite s m e =>
      let v := if s then Zneg m else Zpos m in
      match e with
      | Z0 => v
      | Zpos p => v * 2 ^ Zpos p
      | Zneg p => - ((- v) / 2 ^ Zpos p)
      end
  | _ => 0
  end.

(** An integer of magnitude below [2^53] as a float; a zero result takes the
    sign [s]. *)
Definition of_int_exact (s : bool) (z : Z) : float64 :=
  match z with
  | Z0 => S754_zero s
  | Zpos m => normalize_exact false m 0
  | Zneg m => normalize_exact true m 0
  end.

(** [int(x)]: truncation toward zero when the result fits, otherwise
    whatever the platform produces. *)
Definition to_int (P : Platform) (x : float64) : Z :=
  if is_finite x && GoInt.in_range (truncZ x) then truncZ x
  else GoInt.wrap (int_of_unrepresentable P x).

End GoFloat.

(** ** Package [math] *)
Module GoMath.
Import GoFloat.

(** [math.Trunc]: special values and integers are returned as they are. *)
Definition Trunc (x : float64) : float64 :=
  match x with
  | S754_finite s m (Zneg p) => of_int_exact s (truncZ x)
  | _ => x
  end.

(** [math.Ceil], which Go defines as [-Floor(-x)]. *)
Definition Ceil (x : float64) : float64 :=
  match x with
  | S754_finite s m (Zneg p) => of_int_exact s (ceilZ x)
  | _ => x
  end.

(** [math.Mod x y]: the remainder of [x / y] with the sign of [x], which is
    always exact.  NaN when [y] is zero or NaN, or [x] is infinite or NaN. *)
Definition Mod (x y : float64) : float64 :=
  match x, y with
  | S754_nan, _ | _, S754_nan => nan
  | S754_infinity _, _ => nan
  | _, S754_zero _ => nan
  | _, S754_infinity _ => x
  | S754_zero _, _ => x
  | S754_finite sx mx ex, S754_finite _ my ey =>
      let ez := Z.min ex ey in
      let X := Zpos (fst (shl_align mx ex ez)) in
      let Y := Zpos (fst (shl_align my ey ez)) in
      match X mod Y with
      | Zpos r => normalize_exact sx r ez
      | _ => S754_zero sx
      end
  end.

End GoMath.

(** ** Strings

    A Go [string] is a sequence of bytes; it is modelled by Rocq's [string],
    whose characters are bytes, and read through [bytes]. *)
Definition byte_of_ascii (c : ascii) : Z := Z.of_N (N_of_ascii c).
Definition ascii_of_byte (b : Z) : ascii := ascii_of_N (Z.to_N b).

Definition bytes (s : string) : list Z := map byte_of_ascii (list_ascii_of_string s).
Definition string_of_bytes (p : list Z) : string :=
  string_of_list_ascii (map ascii_of_byte p).

(** [len(s)] *)
Definition len (s : string) : Z := Z.of_nat (String.length s).

(** ** Package [unicode/utf8] *)
Module GoUtf8.

Definition RuneError : Z := 0xFFFD.
Definition RuneSelf : Z := 0x80.
Definition UTFMax : nat := 4.

(** What the [first] table says of a leading byte: the length of the
    sequence it starts and the range accepted for the second byte. *)
Variant lead := LeadASCII | LeadInvalid | Lead (size : nat) (lo hi : Z).

Definition first (b : Z) : lead :=
  if b <? 0x80 then LeadASCII
  else if b <? 0xC2 then LeadInvalid
  else if b <? 0xE0 then Lead 2 0x80 0xBF
  else if b =? 0xE0 then Lead 3 0xA0 0xBF
  else if b <? 0xED then Lead 3 0x80 0xBF
  else if b =? 0xED then Lead 3 0x80 0x9F
  else if b <? 0xF0 then Lead 3 0x80 0xBF
  else if b =? 0xF0 then Lead 4 0x90 0xBF
  else if b <? 0xF4 then Lead 4 0x80 0xBF
  else if b =? 0xF4 then Lead 4 0x80 0x8F
  else LeadInvalid.

Definition outside (b lo hi : Z) : bool := (b <? lo) || (hi <? b).

(** [utf8.DecodeRuneInString]: the first rune of [p] and its width in bytes;
    [(RuneError, 1)] for an invalid or truncated encoding. *)
Definition DecodeRune (p : list Z) : Z * nat :=
  match p with
  | [] => (RuneError, 0%nat)
  | s0 :: p1 =>
      match first s0 with
      | LeadASCII => (s0, 1%nat)
      | LeadInvalid => (RuneError, 1%nat)
      | Lead sz lo hi =>
          if (length p <? sz)%nat then (RuneError, 1%nat) else
          match p1 with
          | [] => (RuneError, 1%nat)
          | s1 :: p2 =>
              if outside s1 lo hi then (RuneError, 1%nat) else
              if (sz <=? 2)%nat then
                (Z.lor (Z.shiftl (Z.land s0 0x1F) 6) (Z.land s1 0x3F), 2%nat)
              else
              match p2 with
              | [] => (RuneError, 1%nat)
              | s2 :: p3 =>
                  if outside s2 0x80 0xBF then (RuneError, 1%nat) else
                  if (sz <=? 3)%nat then
                    (Z.lor (Z.shiftl (Z.land s0 0x0F) 12)
                       (Z.lor (Z.shiftl (Z.land s1 0x3F) 6) (Z.land s2 0x3F)),
                     3%nat)
                  else
                  match p3 with
                  | [] => (RuneError, 1%nat)
                  | s3 :: _ =>
                      if outside s3 0x80 0xBF then (RuneError, 1%nat) else
                      (Z.lor (Z.shiftl (Z.land s0 0x07) 18)
                         (Z.lor (Z.shiftl (Z.land s1 0x3F) 12)
                            (Z.lor (Z.shiftl (Z.land s2 0x3F) 6) (Z.land s3 0x3F))),
                       4%nat)
                  end
              end
          end
      end
  end.

(** The runes a [for _, r := range s] loop visits, in order. *)
Fixpoint range_loop (fuel : nat) (p : list Z) : list Z :=
  match fuel, p with
  | S fuel', _ :: _ =>
      let '(r, size) := DecodeRune p in
      r :: range_loop fuel' (skipn size p)
  | _, _ => []
  end.

Definition runes (s : string) : list Z :=
  range_loop (String.length s) (bytes s).

(** [utf8.RuneCountInString] *)
Definition RuneCountInString (s : string) : Z := Z.of_nat (length (runes s)).

(** [utf8.RuneStart]: [b] is not a continuation byte. *)
Definition RuneStart (b : Z) : bool := negb (Z.land b 0xC0 =? 0x80).

(** The backward scan of [DecodeLastRuneInString]: from [start] down to
    [lim], stop at the first byte that can start a rune. *)
Fixpoint scan_back (fuel : nat) (p : list Z) (start lim : Z) : Z :=
  match fuel with
  | O => start
  | S fuel' =>
      if start <? lim then start
      else if RuneStart (nth (Z.to_nat start) p 0) then start
      else scan_back fuel' p (start - 1) lim
  end.

(** [utf8.DecodeLastRuneInString] *)
Definition DecodeLastRune (p : list Z) : Z * nat :=
  let end_ := Z.of_nat (length p) in
  if end_ =? 0 then (RuneError, 0%nat) else
  let start := end_ - 1 in
  let r := nth (Z.to_nat start) p 0 in
  if r <? RuneSelf then (r, 1%nat) else
  let lim := Z.max 0 (end_ - Z.of_nat UTFMax) in
  let start := scan_back UTFMax p (start - 1) lim in
  let start := Z.max 0 start in
  let '(r, size) := DecodeRune (skipn (Z.to_nat start) p) in
  if start + Z.of_nat size =? end_ then (r, size) else (RuneError, 1%nat).

End GoUtf8.

(** ** Package [unicode] *)
Module GoUnicode.

Definition MaxLatin1 : Z := 0xFF.

Definition between (lo r hi : Z) : bool := (lo <=? r) && (r <=? hi).

(** The entries of the Latin-1 [properties] table that carry a letter bit. *)
Definition latin1_letter (r : Z) : bool :=
  between 0x41 r 0x5A || between 0x61 r 0x7A
  || (r =? 0xAA) || (r =? 0xB5) || (r =? 0xBA)
  || between 0xC0 r 0xD6 || between 0xD8 r 0xF6 || between 0xF8 r 0xFF.

Definition IsLetter (P : Platform) (r : Z) : bool :=
  if r <=? MaxLatin1 then latin1_letter r else unicode_Letter P r.

Definition IsDigit (P : Platform) (r : Z) : bool :=
  if r <=? MaxLatin1 then between 0x30 r 0x39 else unicode_Digit P r.

(** [unicode.White_Space] above Latin-1. *)
Definition White_Space (r : Z) : bool :=
  (r =? 0x1680) || between 0x2000 r 0x200A || between 0x2028 r 0x2029
  || (r =? 0x202F) || (r =? 0x205F) || (r =? 0x3000).

Definition IsSpace (r : Z) : bool :=
  if r <=? MaxLatin1 then
    between 0x09 r 0x0D || (r =? 0x20) || (r =? 0x85) || (r =? 0xA0)
  else White_Space r.

End GoUnicode.

(** ** Package [strings] *)
Module GoStrings.

(** The [asciiSpace] table: tab, line feed, vertical tab, form feed,
    carriage return, space. *)
Definition asciiSpace (c : Z) : bool := GoUnicode.between 0x09 c 0x0D || (c =? 0x20).

(** [TrimLeftFunc(s, unicode.IsSpace)]: drop leading runes while they are
    spaces. *)
Fixpoint TrimLeftSpace (fuel : nat) (p : list Z) : list Z :=
  match fuel, p with
  | S fuel', _ :: _ =>
      let '(r, size) := GoUtf8.DecodeRune p in
      if GoUnicode.IsSpace r then TrimLeftSpace fuel' (skipn size p) else p
  | _, _ => []
  end.

(** [lastIndexFunc(s, unicode.IsSpace, false)]: the byte index of the last
    rune that is not a space, decoding from the end; [-1] if there is none. *)
Fixpoint lastIndexNotSpace (fuel : nat) (p : list Z) (i : nat) : Z :=
  match fuel with
  | O => -1
  | S fuel' =>
      if (0 <? i)%nat then
        let '(r, size) := GoUtf8.DecodeLastRune (firstn i p) in
        let i := (i - size)%nat in
        if negb (GoUnicode.IsSpace r) then Z.of_nat i
        else lastIndexNotSpace fuel' p i
      else -1
  end.

(** [TrimRightFunc(s, unicode.IsSpace)] *)
Definition TrimRightSpace (p : list Z) : list Z :=
  let i := lastIndexNotSpace (S (length p)) p (length p) in
  let i :=
    if (0 <=? i) && (GoUtf8.RuneSelf <=? nth (Z.to_nat i) p 0) then
      i + Z.of_nat (snd (GoUtf8.DecodeRune (skipn (Z.to_nat i) p)))
    else i + 1 in
  firstn (Z.to_nat i) p.

(** The second loop of [TrimSpace]: [p] is [s[start:]] reversed, so its head
    is [s[stop-1]].  It answers with the trimmed [s[start:stop]]. *)
Fixpoint trim_stop (rev_p : list Z) : list Z :=
  match rev_p with
  | [] => []
  | c :: rest =>
      if GoUtf8.RuneSelf <=? c then TrimRightSpace (rev rev_p)
      else if asciiSpace c then trim_stop rest
      else rev rev_p
  end.

(** The first loop of [TrimSpace], over [s[start:]]. *)
Fixpoint trim_start (p : list Z) : list Z :=
  match p with
  | [] => trim_stop (rev p)
  | c :: rest =>
      if GoUtf8.RuneSelf <=? c then TrimRightSpace (TrimLeftSpace (length p) p)
      else if asciiSpace c then trim_start rest
      else trim_stop (rev p)
  end.

(** [strings.TrimSpace]: ASCII fast path from both ends, falling back to
    the rune-aware trimming at the first non-ASCII byte met. *)
Definition TrimSpace (s : string) : string :=
  string_of_bytes (trim_start (bytes s)).

End GoStrings.

(** ** Package [strconv]: [ParseFloat(s, 64)] *)
Module GoStrconv.
Import GoFloat.

(** [lower(c)]: [c | ('x' - 'X')] *)
Definition lower (c : Z) : Z := Z.lor c 0x20.

Definition isDigit (c : Z) : bool := (0x30 <=? c) && (c <=? 0x39).
Definition isHexLetter (c : Z) : bool := (0x61 <=? lower c) && (lower c <=? 0x66).

(** [commonPrefixLenIgnoreCase(s, prefix)], [prefix] in lower case. *)
Fixpoint commonPrefixLenIgnoreCase (s prefix : list Z) : nat :=
  match s, prefix with
  | c :: s', d :: prefix' =>
      let c := if (0x41 <=? c) && (c <=? 0x5A) then c + 0x20 else c in
      if c =? d then S (commonPrefixLenIgnoreCase s' prefix') else O
  | _, _ => O
  end.

(** [special]: a prefix of [s] that spells an infinity or a NaN, with the
    number of bytes it takes. *)
Definition special (s : list Z) : option (float64 * nat) :=
  let infinity (neg : bool) (nsign : nat) (s : list Z) :=
    let n := commonPrefixLenIgnoreCase s (bytes "infinity") in
    let n := if (3 <? n)%nat && (n <? 8)%nat then 3%nat else n in
    if (n =? 3)%nat || (n =? 8)%nat then Some (inf neg, (nsign + n)%nat) else None in
  match s with
  | [] => None
  | c :: s' =>
      if c =? 0x2B then infinity false 1%nat s'
      else if c =? 0x2D then infinity true 1%nat s'
      else if (c =? 0x69) || (c =? 0x49) then infinity false 0%nat s
      else if (c =? 0x6E) || (c =? 0x4E) then
        if (commonPrefixLenIgnoreCase s (bytes "nan") =? 3)%nat
        then Some (nan, 3%nat) else None
      else None
  end.

(** The running state of [readFloat]'s digit loop.  The mantissa is kept in
    full (Go keeps 19 digits and a flag saying whether a non-zero digit was
    dropped, from which its conversions recover the correctly rounded
    result), so [nd] counts every digit of it. *)
Record digits_state := {
  mantissa : Z;
  nd : Z;
  dp : Z;
  sawdot : bool;
  sawdigits : bool;
  underscores : bool
}.

(** The digit loop: it consumes digits, underscores and the first dot, and
    answers with the state and what is left of the input. *)
Fixpoint read_digits (base : Z) (st : digits_state) (s : list Z)
  : digits_state * list Z :=
  match s with
  | [] => (st, s)
  | c :: s' =>
      if c =? 0x5F then
        read_digits base
          {| mantissa := mantissa st; nd := nd st; dp := dp st;
             sawdot := sawdot st; sawdigits := sawdigits st;
             underscores := true |} s'
      else if c =? 0x2E then
        if sawdot st then (st, s)
        else
          read_digits base
            {| mantissa := mantissa st; nd := nd st; dp := nd st;
               sawdot := true; sawdigits := sawdigits st;
               underscores := underscores st |} s'
      else if isDigit c then
        if (c =? 0x30) && (nd st =? 0) then
          read_digits base
            {| mantissa := mantissa st; nd := nd st; dp := dp st - 1;
               sawdot := sawdot st; sawdigits := true;
               underscores := underscores st |} s'
        else
          read_digits base
            {| mantissa := mantissa st * base + (c - 0x30); nd := nd st + 1;
               dp := dp st; sawdot := sawdot st; sawdigits := true;
               underscores := underscores st |} s'
      else if (base =? 16) && isHexLetter c then
        read_digits base
          {| mantissa := mantissa st * 16 + (lower c - 0x61 + 10);
             nd := nd st + 1; dp := dp st; sawdot := sawdot st;
             sawdigits := true; underscores := underscores st |} s'
      else (st, s)
  end.

(** The digits of the exponent: the value (no longer updated once it has
    reached 10000), whether an underscore was met, and the rest. *)
Fixpoint read_exponent (e : Z) (us : bool) (s : list Z) : Z * bool * list Z :=
  match s with
  | c :: s' =>
      if c =? 0x5F then read_exponent e true s'
      else if isDigit c then
        read_exponent (if e <? 10000 then e * 10 + c - 0x30 else e) us s'
      else (e, us, s)
  | [] => (e, us, s)
  end.

(** [underscoreOK]: every underscore separates two digits (a base prefix
    counts as a digit).  [saw] is [0] for a digit, [1] for an underscore,
    [2] at the start and [3] after anything else. *)
Fixpoint underscore_scan (hex : bool) (saw : Z) (s : list Z) : bool :=
  match s with
  | [] => negb (saw =? 1)
  | c :: s' =>
      if isDigit c || (hex && isHexLetter c) then underscore_scan hex 0 s'
      else if c =? 0x5F then
        if negb (saw =? 0) then false else underscore_scan hex 1 s'
      else if saw =? 1 then false
      else underscore_scan hex 3 s'
  end.

Definition underscoreOK (s : list Z) : bool :=
  let s :=
    match s with
    | c :: s' => if (c =? 0x2D) || (c =? 0x2B) then s' else s
    | [] => s
    end in
  match s with
  | c0 :: c1 :: s' =>
      if (c0 =? 0x30) && ((lower c1 =? 0x62) || (lower c1 =? 0x6F) || (lower c1 =? 0x78))
      then underscore_scan (lower c1 =? 0x78) 0 s'
      else underscore_scan false 2 s
  | _ => underscore_scan false 2 s
  end.

(** What [readFloat] hands on: the digits as an integer, the exponent of
    the base they are scaled by (ten for a decimal, two for a hexadecimal
    mantissa), the sign and the number of bytes read. *)
Record scanned := {
  sc_mantissa : Z;
  sc_nd : Z;
  sc_dp : Z;
  sc_neg : bool;
  sc_hex : bool;
  sc_read : nat
}.

(** [readFloat]: [None] where Go returns [ok = false]. *)
Definition readFloat (s : list Z) : option scanned :=
  match s with
  | [] => None
  | c :: _ =>
      let neg := c =? 0x2D in
      let s1 := if (c =? 0x2B) || (c =? 0x2D) then tl s else s in
      let hex :=
        match s1 with
        | c0 :: c1 :: _ :: _ => (c0 =? 0x30) && (lower c1 =? 0x78)
        | _ => false
        end in
      let base := if hex then 16 else 10 in
      let expChar := if hex then 0x70 else 0x65 in
      let s2 := if hex then skipn 2 s1 else s1 in
      let '(st, s3) :=
        read_digits base
          {| mantissa := 0; nd := 0; dp := 0; sawdot := false;
             sawdigits := false; underscores := false |} s2 in
      if negb (sawdigits st) then None else
      let dp0 := if sawdot st then dp st else nd st in
      let dp0 := if hex then dp0 * 4 else dp0 in
      let nd0 := if hex then nd st * 4 else nd st in
      let finish (dp1 : Z) (us : bool) (rest : list Z) :=
        let read := (length s - length rest)%nat in
        if us && negb (underscoreOK (firstn read s)) then None
        else Some {| sc_mantissa := mantissa st; sc_nd := nd0; sc_dp := dp1;
                     sc_neg := neg; sc_hex := hex; sc_read := read |} in
      match s3 with
      | c :: s4 =>
          if lower c =? expChar then
            match s4 with
            | [] => None
            | d :: s5 =>
                let esign := if d =? 0x2D then -1 else 1 in
                let s6 := if (d =? 0x2B) || (d =? 0x2D) then s5 else s4 in
                match s6 with
                | d' :: _ =>
                    if isDigit d' then
                      let '(e, us, rest) := read_exponent 0 (underscores st) s6 in
                      finish (dp0 + e * esign) us rest
                    else None
                | [] => None
                end
            end
          else if hex then None
          else finish dp0 (underscores st) s3
      | [] => if hex then None else finish dp0 (underscores st) s3
      end
  end.

(** The value of a scan: the nearest [float64] to [mantissa * base^exp]
    (ties to even); [None] when it overflows ([ErrRange]).  A decimal whose
    point lies beyond 310 digits overflows and one whose point lies below
    -330 is zero, as Go decides before converting. *)
Definition convert (sc : scanned) : option float64 :=
  match sc_mantissa sc with
  | Zpos m =>
      let exp := sc_dp sc - sc_nd sc in
      let f :=
        if sc_hex sc then of_scaled (sc_neg sc) m exp
        else if 310 <? sc_dp sc then inf (sc_neg sc)
        else if sc_dp sc <? -330 then S754_zero (sc_neg sc)
        else
          match exp with
          | Zneg p => of_ratio (sc_neg sc) m (10 ^ p)%positive
          | _ => of_scaled (sc_neg sc) (m * Z.to_pos (10 ^ exp))%positive 0
          end in
      if is_finite f then Some f else None
  | _ => Some (S754_zero (sc_neg sc))
  end.

(** [strconv.ParseFloat(s, 64)]: [Some f] when [err == nil].  The whole of
    [s] has to be consumed. *)
Definition ParseFloat (s : string) : option float64 :=
  let p := bytes s in
  match special p with
  | Some (f, n) => if (n =? length p)%nat then Some f else None
  | None =>
      match readFloat p with
      | Some sc => if (sc_read sc =? length p)%nat then convert sc else None
      | None => None
      end
  end.

End GoStrconv.

(** ** Package [time]: [Parse] for the two layouts of the program *)
Module GoTime.

(** The fields of a parsed [Time] the program reads back. *)
Record Time := {
  t_year : Z;
  t_month : Z;
  t_day : Z;
  t_hour : Z;
  t_min : Z
}.

(** [t.Day()] *)
Definition Day (t : Time) : Z := t_day t.
(** [t.Clock()], without the seconds, which no layout here sets. *)
Definition Clock (t : Time) : Z * Z := (t_hour t, t_min t).

(** The layout elements [nextStdChunk] finds in ["2006-01-02"] and
    ["15:04"], and the literal text between them. *)
Variant chunk :=
  | stdLongYear | stdZeroMonth | stdZeroDay | stdHour | stdZeroMinute
  | prefix (lit : list Z).

(** ["2006-01-02"] *)
Definition layout_2006_01_02 : list chunk :=
  [stdLongYear; prefix [0x2D]; stdZeroMonth; prefix [0x2D]; stdZeroDay].
(** ["15:04"] *)
Definition layout_15_04 : list chunk :=
  [stdHour; prefix [0x3A]; stdZeroMinute].

Definition isDigit (s : list Z) (i : nat) : bool :=
  match nth_error s i with
  | Some c => (0x30 <=? c) && (c <=? 0x39)
  | None => false
  end.

(** [getnum]: one or two digits, exactly two when [fixed]. *)
Definition getnum (s : list Z) (fixed : bool) : option (Z * list Z) :=
  if negb (isDigit s 0) then None
  else if negb (isDigit s 1) then
    if fixed then None else Some (nth 0 s 0 - 0x30, skipn 1 s)
  else Some ((nth 0 s 0 - 0x30) * 10 + (nth 1 s 0 - 0x30), skipn 2 s).

Fixpoint leadingInt (x : Z) (s : list Z) : Z * list Z :=
  match s with
  | c :: s' =>
      if (0x30 <=? c) && (c <=? 0x39) then leadingInt (x * 10 + (c - 0x30)) s'
      else (x, s)
  | [] => (x, s)
  end.

(** [atoi]: an optional sign and digits up to the end of [s].  (Its
    overflow check is out of reach of the four bytes it is given here.) *)
Definition atoi (s : list Z) : option Z :=
  let signed :=
    match s with
    | c :: _ => (c =? 0x2D) || (c =? 0x2B)
    | [] => false
    end in
  let neg := match s with c :: _ => c =? 0x2D | [] => false end in
  let '(q, rem) := leadingInt 0 (if signed then tl s else s) in
  match rem with
  | [] => Some (if neg then - q else q)
  | _ :: _ => None
  end.

(** [skip(value, prefix)] for a prefix without spaces: the literal has to
    be there, byte for byte. *)
Fixpoint skip (value pre : list Z) : option (list Z) :=
  match pre with
  | [] => Some value
  | c :: pre' =>
      match value with
      | v :: value' => if v =? c then skip value' pre' else None
      | [] => None
      end
  end.

Definition isLeap (year : Z) : bool :=
  (Z.rem year 4 =? 0) && (negb (Z.rem year 100 =? 0) || (Z.rem year 400 =? 0)).

Definition daysIn (m year : Z) : Z :=
  if m =? 2 then (if isLeap year then 29 else 28)
  else 30 + Z.land (m + Z.shiftr m 3) 1.

Definition with_year (t : Time) (v : Z) : Time :=
  {| t_year := v; t_month := t_month t; t_day := t_day t;
     t_hour := t_hour t; t_min := t_min t |}.
Definition with_month (t : Time) (v : Z) : Time :=
  {| t_year := t_year t; t_month := v; t_day := t_day t;
     t_hour := t_hour t; t_min := t_min t |}.
Definition with_day (t : Time) (v : Z) : Time :=
  {| t_year := t_year t; t_month := t_month t; t_day := v;
     t_hour := t_hour t; t_min := t_min t |}.
Definition with_hour (t : Time) (v : Z) : Time :=
  {| t_year := t_year t; t_month := t_month t; t_day := t_day t;
     t_hour := v; t_min := t_min t |}.
Definition with_min (t : Time) (v : Z) : Time :=
  {| t_year := t_year t; t_month := t_month t; t_day := t_day t;
     t_hour := t_hour t; t_min := v |}.

(** The main loop of [parse]: each element consumes its part of [value];
    a missing literal, a malformed number or a number out of range ends
    the parse with an error; so does text left over at the end. *)
Fixpoint parse_chunks (layout : list chunk) (value : list Z) (t : Time)
  : option Time :=
  match layout with
  | [] => match value with [] => Some t | _ :: _ => None end
  | prefix lit :: layout' =>
      match skip value lit with
      | Some value' => parse_chunks layout' value' t
      | None => None
      end
  | stdLongYear :: layout' =>
      if (length value <? 4)%nat || negb (isDigit value 0) then None
      else
        match atoi (firstn 4 value) with
        | Some year => parse_chunks layout' (skipn 4 value) (with_year t year)
        | None => None
        end
  | stdZeroMonth :: layout' =>
      match getnum value true with
      | Some (month, value') =>
          if (month <=? 0) || (12 <? month) then None
          else parse_chunks layout' value' (with_month t month)
      | None => None
      end
  | stdZeroDay :: layout' =>
      match getnum value true with
      | Some (day, value') => parse_chunks layout' value' (with_day t day)
      | None => None
      end
  | stdHour :: layout' =>
      match getnum value false with
      | Some (hour, value') =>
          if (hour <? 0) || (24 <=? hour) then None
          else parse_chunks layout' value' (with_hour t hour)
      | None => None
      end
  | stdZeroMinute :: layout' =>
      match getnum value true with
      | Some (min, value') =>
          if (min <? 0) || (60 <=? min) then None
          else parse_chunks layout' value' (with_min t min)
      | None => None
      end
  end.

(** [time.Parse(layout, value)]: [Some t] when [err == nil].  Month and day
    start unset ([-1]) and default to January the first; the day is checked
    against the month's length once everything is read. *)
Definition Parse (layout : list chunk) (value : string) : option Time :=
  match
    parse_chunks layout (bytes value)
      {| t_year := 0; t_month := -1; t_day := -1; t_hour := 0; t_min := 0 |}
  with
  | Some t =>
      let month := if t_month t <? 0 then 1 else t_month t in
      let day := if t_day t <? 0 then 1 else t_day t in
      if (day <? 1) || (daysIn month (t_year t) <? day) then None
      else Some (with_day (with_month t month) day)
  | None => None
  end.

End GoTime.

(** * The program *)

Record Item := {
  ShortDescription : string;
  Price : string
}.

Record Receipt := {
  Retailer : string;
  PurchaseDate : string;
  PurchaseTime : string;
  Total : string;
  Items : list Item
}.

Record ProcessedReceipt := {
  ID : string;
  Points : Z
}.

Section Scorer.

Variable P : Platform.

(** One point for every alphanumeric character in the retailer name. *)
Definition retailer_rule (totalPoints : Z) (receipt : Receipt) : Z :=
  fold_left
    (fun totalPoints char =>
       if GoUnicode.IsLetter P char || GoUnicode.IsDigit P char
       then GoInt.add totalPoints 1
       else totalPoints)
    (GoUtf8.runes (Retailer receipt)) totalPoints.

(** 50 points if the total is a round dollar amount with no cents, 25
    points if the total is a multiple of 0.25. *)
Definition total_rules (totalPoints : Z) (receipt : Receipt) : Z :=
  match GoStrconv.ParseFloat (Total receipt) with
  | Some total =>
      let totalPoints :=
        if GoFloat.eqb total (GoMath.Trunc total)
        then GoInt.add totalPoints 50 else totalPoints in
      let totalPoints :=
        if GoFloat.eqb (GoMath.Mod total GoFloat.c0_25) GoFloat.zero
        then GoInt.add totalPoints 25 else totalPoints in
      totalPoints
  | None => totalPoints
  end.

(** 5 points for every two items on the receipt. *)
Definition pairs_rule (totalPoints : Z) (receipt : Receipt) : Z :=
  let numItems := Z.of_nat (length (Items receipt)) in
  GoInt.add totalPoints (GoInt.mul (GoInt.quo numItems 2) 5).

(** The body of the loop over the items: if the trimmed length of the item
    description is a multiple of 3, the price times 0.2, rounded up, is the
    number of points earned. *)
Definition item_rule (totalPoints : Z) (item : Item) : Z :=
  let description := GoStrings.TrimSpace (ShortDescription item) in
  if GoInt.rem (len description) 3 =? 0 then
    match GoStrconv.ParseFloat (Price item) with
    | Some price =>
        let points := GoFloat.to_int P (GoMath.Ceil (GoFloat.mul price GoFloat.c0_2)) in
        GoInt.add totalPoints points
    | None => totalPoints
    end
  else totalPoints.

Definition items_rule (totalPoints : Z) (receipt : Receipt) : Z :=
  fold_left item_rule (Items receipt) totalPoints.

(** 6 points if the day in the purchase date is odd. *)
Definition date_rule (totalPoints : Z) (receipt : Receipt) : Z :=
  match GoTime.Parse GoTime.layout_2006_01_02 (PurchaseDate receipt) with
  | Some purchaseDate =>
      if GoInt.rem (GoTime.Day purchaseDate) 2 =? 1
      then GoInt.add totalPoints 6 else totalPoints
  | None => totalPoints
  end.

(** 10 points if the time of purchase is after 2:00pm and before 4:00pm. *)
Definition time_rule (totalPoints : Z) (receipt : Receipt) : Z :=
  match GoTime.Parse GoTime.layout_15_04 (PurchaseTime receipt) with
  | Some purchaseTime =>
      let '(hour, minute) := GoTime.Clock purchaseTime in
      let totalMinutes := GoInt.add (GoInt.mul hour 60) minute in
      if (14 * 60 <=? totalMinutes) && (totalMinutes <? 16 * 60)
      then GoInt.add totalPoints 10 else totalPoints
  | None => totalPoints
  end.

(** [calculatePoints]: the six blocks of the source, run in its order on
    the running [totalPoints]. *)
Definition calculatePoints (receipt : Receipt) : Z :=
  let totalPoints := 0 in
  let totalPoints := retailer_rule totalPoints receipt in
  let totalPoints := total_rules totalPoints receipt in
  let totalPoints := pairs_rule totalPoints receipt in
  let totalPoints := items_rule totalPoints receipt in
  let totalPoints := date_rule totalPoints receipt in
  let totalPoints := time_rule totalPoints receipt in
  totalPoints.

End Scorer.

(** ** Package [encoding/json]: decoding into a [Receipt] *)
Module GoJson.

(** A JSON value as the decoder's scanner delivers it; strings are already
    unquoted. *)
#[warnings="-register-all"]
Inductive value :=
  | JNull
  | JBool (b : bool)
  | JNumber (literal : string)
  | JString (s : string)
  | JArray (elements : list value)
  | JObject (members : list (string * value)).

(** What [Decode] finds in the request body: no well-formed JSON value (a
    syntax error, or no input at all), or the first value of the stream. *)
Variant input :=
  | Invalid
  | Document (v : value).

(** *** Matching an object key with a struct field

    A key names a field when it equals the field's JSON name, or else when
    the two are equal after [foldName].  Every field name here is ASCII, and
    the only runes outside ASCII that fold to an ASCII letter are U+017F
    (to [S]) and U+212A (to [K]); the model folds any other rune to
    itself, which leaves every comparison with a field name unchanged. *)
Definition foldRune (r : Z) : Z :=
  if r =? 0x17F then 0x53 else if r =? 0x212A then 0x4B else r.

Fixpoint appendFoldedName (fuel : nat) (p : list Z) : list Z :=
  match fuel, p with
  | S fuel', c :: p' =>
      if c <? GoUtf8.RuneSelf then
        (if (0x61 <=? c) && (c <=? 0x7A) then c - 0x20 else c)
          :: appendFoldedName fuel' p'
      else
        let '(r, n) := GoUtf8.DecodeRune p in
        foldRune r :: appendFoldedName fuel' (skipn n p)
  | _, _ => []
  end.

Definition foldName (name : string) : list Z :=
  appendFoldedName (String.length name) (bytes name).

Definition same_folded (a b : list Z) : bool :=
  if decide (a = b) then true else false.

(** The field a key selects: [byExactName] first, then [byFoldedName]. *)
Definition field_of_key {F : Type} (fields : list (string * F)) (key : string)
  : option F :=
  match find (fun f => String.eqb (fst f) key) fields with
  | Some f => Some (snd f)
  | None =>
      match find (fun f => same_folded (foldName (fst f)) (foldName key)) fields with
      | Some f => Some (snd f)
      | None => None
      end
  end.

Variant item_field := shortDescription | price.
Definition item_fields : list (string * item_field) :=
  [("shortDescription"%string, shortDescription); ("price"%string, price)].

Variant receipt_field := retailer | purchaseDate | purchaseTime | total | items.
Definition receipt_fields : list (string * receipt_field) :=
  [("retailer"%string, retailer); ("purchaseDate"%string, purchaseDate);
   ("purchaseTime"%string, purchaseTime); ("total"%string, total);
   ("items"%string, items)].

(** *** Storing values

    Each function takes the current content of its target and answers
    with the new content and whether an [UnmarshalTypeError] was saved.
    Such an error does not stop the decoder: it goes on with the rest of the
    document and reports the error at the end. *)

(** Into a [string]: a JSON string is stored, [null] is ignored, anything
    else is a type error. *)
Definition store_string (cur : string) (v : value) : string * bool :=
  match v with
  | JString s => (s, false)
  | JNull => (cur, false)
  | _ => (cur, true)
  end.

Definition item_member (st : Item * bool) (kv : string * value) : Item * bool :=
  let '(item, err) := st in
  match field_of_key item_fields (fst kv) with
  | Some shortDescription =>
      let '(s, e) := store_string (ShortDescription item) (snd kv) in
      ({| ShortDescription := s; Price := Price item |}, err || e)
  | Some price =>
      let '(s, e) := store_string (Price item) (snd kv) in
      ({| ShortDescription := ShortDescription item; Price := s |}, err || e)
  | None => st
  end.

(** Into an [Item]: an object sets the fields its keys name and leaves the
    others as they are; [null] is ignored. *)
Definition store_Item (cur : Item) (v : value) : Item * bool :=
  match v with
  | JObject members => fold_left item_member members (cur, false)
  | JNull => (cur, false)
  | _ => (cur, true)
  end.

Definition zero_Item : Item := {| ShortDescription := ""; Price := "" |}.

(** A [[]Item]: the part of its backing array that has been written so
    far (the array is zero beyond it, whatever its capacity) and its length.
    The elements are the first [slice_len] of the array; what was written
    beyond stays in memory and comes back into view when the length is
    raised again.  The array is reallocated only when the length has
    reached the capacity, where nothing lies beyond the length, so the
    capacity itself needs no tracking. *)
Record slice := {
  backing : list Item;
  slice_len : nat
}.

Definition nil_slice : slice := {| backing := []; slice_len := 0 |}.
Definition slice_elements (s : slice) : list Item :=
  firstn (slice_len s) (backing s).

(** The loop of [array]: the slice is made long enough to have an element
    [i], and element [i] of the JSON array is decoded into it. *)
Fixpoint store_elements (s : slice) (i : nat) (l : list value)
  : slice * nat * bool :=
  match l with
  | [] => (s, i, false)
  | v :: l' =>
      let '(item, e) := store_Item (nth i (backing s) zero_Item) v in
      let s :=
        {| backing :=
             if (i <? length (backing s))%nat then <[i := item]> (backing s)
             else backing s ++ [item];
           slice_len := Nat.max (slice_len s) (S i) |} in
      let '(s', n, e') := store_elements s (S i) l' in
      (s', n, e || e')
  end.

(** Into a [[]Item]: an array is decoded element by element into the slice
    as it stands and the slice is cut to the array's length (an empty array
    gives a fresh empty slice); [null] gives the nil slice. *)
Definition store_Items (cur : slice) (v : value) : slice * bool :=
  match v with
  | JArray l =>
      let '(s, n, e) := store_elements cur 0 l in
      let s :=
        if (n <? slice_len s)%nat
        then {| backing := backing s; slice_len := n |} else s in
      let s := if (n =? 0)%nat then nil_slice else s in
      (s, e)
  | JNull => (nil_slice, false)
  | _ => (cur, true)
  end.

(** The [Receipt] being filled, with its [Items] as a slice. *)
Record target := {
  tg_Retailer : string;
  tg_PurchaseDate : string;
  tg_PurchaseTime : string;
  tg_Total : string;
  tg_Items : slice
}.

(** [var receipt Receipt] *)
Definition zero_target : target :=
  {| tg_Retailer := ""; tg_PurchaseDate := ""; tg_PurchaseTime := "";
     tg_Total := ""; tg_Items := nil_slice |}.

Definition receipt_of (t : target) : Receipt :=
  {| Retailer := tg_Retailer t; PurchaseDate := tg_PurchaseDate t;
     PurchaseTime := tg_PurchaseTime t; Total := tg_Total t;
     Items := slice_elements (tg_Items t) |}.

Definition receipt_member (st : target * bool) (kv : string * value)
  : target * bool :=
  let '(t, err) := st in
  match field_of_key receipt_fields (fst kv) with
  | Some retailer =>
      let '(s, e) := store_string (tg_Retailer t) (snd kv) in
      ({| tg_Retailer := s; tg_PurchaseDate := tg_PurchaseDate t;
          tg_PurchaseTime := tg_PurchaseTime t; tg_Total := tg_Total t;
          tg_Items := tg_Items t |}, err || e)
  | Some purchaseDate =>
      let '(s, e) := store_string (tg_PurchaseDate t) (snd kv) in
      ({| tg_Retailer := tg_Retailer t; tg_PurchaseDate := s;
          tg_PurchaseTime := tg_PurchaseTime t; tg_Total := tg_Total t;
          tg_Items := tg_Items t |}, err || e)
  | Some purchaseTime =>
      let '(s, e) := store_string (tg_PurchaseTime t) (snd kv) in
      ({| tg_Retailer := tg_Retailer t; tg_PurchaseDate := tg_PurchaseDate t;
          tg_PurchaseTime := s; tg_Total := tg_Total t;
          tg_Items := tg_Items t |}, err || e)
  | Some total =>
      let '(s, e) := store_string (tg_Total t) (snd kv) in
      ({| tg_Retailer := tg_Retailer t; tg_PurchaseDate := tg_PurchaseDate t;
          tg_PurchaseTime := tg_PurchaseTime t; tg_Total := s;
          tg_Items := tg_Items t |}, err || e)
  | Some items =>
      let '(s, e) := store_Items (tg_Items t) (snd kv) in
      ({| tg_Retailer := tg_Retailer t; tg_PurchaseDate := tg_PurchaseDate t;
          tg_PurchaseTime := tg_PurchaseTime t; tg_Total := tg_Total t;
          tg_Items := s |}, err || e)
  | None => st
  end.

(** Into a [Receipt]: as for an [Item]; keys that name no field are
    skipped. *)
Definition store_Receipt (cur : target) (v : value) : target * bool :=
  match v with
  | JObject members => fold_left receipt_member members (cur, false)
  | JNull => (cur, false)
  | _ => (cur, true)
  end.

(** [json.NewDecoder(r.Body).Decode(&receipt)] on a zero [receipt]:
    [Some receipt] when [err == nil]. *)
Definition Decode (body : input) : option Receipt :=
  match body with
  | Invalid => None
  | Document v =>
      let '(t, err) := store_Receipt zero_target v in
      if err then None else Some (receipt_of t)
  end.

End GoJson.

(** ** The handlers *)

(** What a handler writes: [http.Error(w, error, code)], or a JSON object
    with the one member the handler puts in it (status 200). *)
Variant response :=
  | http_Error (error : string) (code : Z)
  | id_response (id : string)
  | points_response (points : Z).

Definition StatusBadRequest : Z := 400.
Definition StatusNotFound : Z := 404.

Section Handlers.

Variable P : Platform.

(** [processReceiptHandler]: [body] is the request's body, [uuid] the
    string [uuid.New().String()] returns for this request and
    [receiptStore] the global map, which the handler returns updated. *)
Definition processReceiptHandler
    (uuid : string) (body : GoJson.input) (receiptStore : gmap string ProcessedReceipt)
  : response * gmap string ProcessedReceipt :=
  match GoJson.Decode body with
  | None => (http_Error "The receipt is invalid." StatusBadRequest, receiptStore)
  | Some receipt =>
      let points := calculatePoints P receipt in
      let id := uuid in
      let receiptStore := <[id := {| ID := id; Points := points |}]> receiptStore in
      (id_response id, receiptStore)
  end.

(** [getPointsHandler]: [id] is the path variable [mux.Vars(r)["id"]]. *)
Definition getPointsHandler
    (id : string) (receiptStore : gmap string ProcessedReceipt)
  : response * gmap string ProcessedReceipt :=
  match receiptStore !! id with
  | None => (http_Error "No receipt found for that ID." StatusNotFound, receiptStore)
  | Some receipt => (points_response (Points receipt), receiptStore)
  end.

(** A request as the router dispatches it, and the server's run over a
    sequence of requests handled one after the other. *)
Variant request :=
  | POST_receipts_process (uuid : string) (body : GoJson.input)
  | GET_receipts_points (id : string).

Definition serve (req : request) (receiptStore : gmap string ProcessedReceipt)
  : response * gmap string ProcessedReceipt :=
  match req with
  | POST_receipts_process uuid body => processReceiptHandler uuid body receiptStore
  | GET_receipts_points id => getPointsHandler id receiptStore
  end.

Definition run (reqs : list request) (receiptStore : gmap string ProcessedReceipt)
  : gmap string ProcessedReceipt :=
  fold_left (fun st req => snd (serve req st)) reqs receiptStore.

End Handlers.

(** * Definitions the statements use *)

(** A platform to run the program on when the statement needs a particular
    one: an unrepresentable conversion gives the smallest [int], as the amd64
    conversion instruction does, and the tables above Latin-1 are left empty
    (no input below has a rune up there). *)
Definition amd64_latin1 : Platform :=
  {| unicode_Letter := fun _ => false;
     unicode_Digit := fun _ => false;
     int_of_unrepresentable := fun _ => GoInt.min_int |}.

(** The receipt of the end-to-end scenario. *)
Definition fixture_receipt : Receipt :=
  {| Retailer := "Target";
     PurchaseDate := "2022-01-01";
     PurchaseTime := "13:01";
     Total := "35.35";
     Items :=
       [ {| ShortDescription := "Mountain Dew 12PK"; Price := "6.49" |};
         {| ShortDescription := "Emils Cheese Pizza"; Price := "12.25" |} ] |}.

(** The same receipt as a request body. *)
Definition fixture_document : GoJson.input :=
  GoJson.Document
    (GoJson.JObject
       [ ("retailer"%string, GoJson.JString "Target");
         ("purchaseDate"%string, GoJson.JString "2022-01-01");
         ("purchaseTime"%string, GoJson.JString "13:01");
         ("items"%string,
          GoJson.JArray
            [ GoJson.JObject
                [ ("shortDescription"%string, GoJson.JString "Mountain Dew 12PK");
                  ("price"%string, GoJson.JString "6.49") ];
              GoJson.JObject
                [ ("shortDescription"%string, GoJson.JString "Emils Cheese Pizza");
                  ("price"%string, GoJson.JString "12.25") ] ]);
         ("total"%string, GoJson.JString "35.35") ]).

(** A receipt that differs from another only in its total or only in its
    purchase time. *)
Definition with_Total (r : Receipt) (total : string) : Receipt :=
  {| Retailer := Retailer r; PurchaseDate := PurchaseDate r;
     PurchaseTime := PurchaseTime r; Total := total; Items := Items r |}.
Definition with_PurchaseTime (r : Receipt) (time : string) : Receipt :=
  {| Retailer := Retailer r; PurchaseDate := PurchaseDate r;
     PurchaseTime := time; Total := Total r; Items := Items r |}.

(** The purchase time in minutes since midnight, when it parses. *)
Definition minutes_since_midnight (purchaseTime : string) : option Z :=
  match GoTime.Parse GoTime.layout_15_04 purchaseTime with
  | Some t => let '(hour, minute) := GoTime.Clock t in Some (hour * 60 + minute)
  | None => None
  end.

(** ** Scoring over the integers *)

(** The item's description, trimmed, has a length (in bytes) that is a
    multiple of three. *)
Definition description_counts (item : Item) : bool :=
  Z.rem (len (GoStrings.TrimSpace (ShortDescription item))) 3 =? 0.

(** The product [price * 0.2] of an item that earns a bonus: its description
    counts and its price parses. *)
Definition bonus_product (item : Item) : option GoFloat.float64 :=
  if description_counts item then
    match GoStrconv.ParseFloat (Price item) with
    | Some price => Some (GoFloat.mul price GoFloat.c0_2)
    | None => None
    end
  else None.

(** The bonus as a mathematical integer: the ceiling of the product. *)
Definition item_bonus (item : Item) : Z :=
  match bonus_product item with
  | Some y => GoFloat.ceilZ y
  | None => 0
  end.

(** Every price that earns a bonus is at least zero and its product with 0.2
    is finite. *)
Definition prices_nonnegative (r : Receipt) : Prop :=
  forall item price,
    In item (Items r) ->
    description_counts item = true ->
    GoStrconv.ParseFloat (Price item) = Some price ->
    GoFloat.leb GoFloat.zero price = true /\
    GoFloat.is_finite (GoFloat.mul price GoFloat.c0_2) = true.

(** The letters and digits of the retailer name. *)
Definition retailer_count (P : Platform) (r : Receipt) : Z :=
  Z.of_nat
    (length
       (List.filter (fun char => GoUnicode.IsLetter P char || GoUnicode.IsDigit P char)
          (GoUtf8.runes (Retailer r)))).

(** The sum of the seven rules over the integers, without wrap-around. *)
Definition exact_points (P : Platform) (r : Receipt) : Z :=
  retailer_count P r
  + total_rules 0 r
  + 5 * (Z.of_nat (length (Items r)) / 2)
  + fold_right (fun item acc => item_bonus item + acc) 0 (Items r)
  + date_rule 0 r
  + time_rule 0 r.

(** All the numeric, date and time fields of a receipt parse. *)
Definition fields_parse (r : Receipt) : bool :=
  match GoStrconv.ParseFloat (Total r),
        GoTime.Parse GoTime.layout_2006_01_02 (PurchaseDate r),
        GoTime.Parse GoTime.layout_15_04 (PurchaseTime r) with
  | Some _, Some _, Some _ =>
      forallb
        (fun item =>
           match GoStrconv.ParseFloat (Price item) with
           | Some _ => true
           | None => false
           end)
        (Items r)
  | _, _, _ => false
  end.

(** A receipt that differs from another only in its items. *)
Definition with_Items (r : Receipt) (items : list Item) : Receipt :=
  {| Retailer := Retailer r; PurchaseDate := PurchaseDate r;
     PurchaseTime := PurchaseTime r; Total := Total r; Items := items |}.

(** The second item of the fixture: 18 bytes of description, price 12.25. *)
Definition pizza_item : Item :=
  {| ShortDescription := "Emils Cheese Pizza"; Price := "12.25" |}.

(** A receipt all of whose fields parse, with one item of negative price. *)
Definition refund_receipt : Receipt :=
  {| Retailer := "";
     PurchaseDate := "2022-01-02";
     PurchaseTime := "13:01";
     Total := "1.10";
     Items := [ {| ShortDescription := "abc"; Price := "-10.00" |} ] |}.

(** An item whose price is a decimal far beyond the range of [int]. *)
Definition huge_item : Item := {| ShortDescription := "abc"; Price := "1e300" |}.

(** Two descriptions with a character outside ASCII: the one character
    U+65E5, three bytes in UTF-8; and ["ab"] followed by U+00E9, three
    characters in four bytes. *)
Definition one_rune_three_bytes : string := string_of_bytes [0xE6; 0x97; 0xA5].
Definition three_runes_four_bytes : string := string_of_bytes [0x61; 0x62; 0xC3; 0xA9].

(** ** The shape of a receipt document *)

(** The kinds of JSON value a field accepts: a string field takes a string
    or [null]; an item takes an object whose [shortDescription] and [price],
    where present, are such values, or [null]; the item list takes an array
    of such items, or [null]. *)
Definition string_shape (v : GoJson.value) : bool :=
  match v with
  | GoJson.JString _ | GoJson.JNull => true
  | _ => false
  end.

Definition item_member_shape (kv : string * GoJson.value) : bool :=
  match GoJson.field_of_key GoJson.item_fields (fst kv) with
  | Some _ => string_shape (snd kv)
  | None => true
  end.

Definition item_shape (v : GoJson.value) : bool :=
  match v with
  | GoJson.JObject members => forallb item_member_shape members
  | GoJson.JNull => true
  | _ => false
  end.

Definition items_shape (v : GoJson.value) : bool :=
  match v with
  | GoJson.JArray l => forallb item_shape l
  | GoJson.JNull => true
  | _ => false
  end.

Definition receipt_member_shape (kv : string * GoJson.value) : bool :=
  match GoJson.field_of_key GoJson.receipt_fields (fst kv) with
  | Some GoJson.items => items_shape (snd kv)
  | Some _ => string_shape (snd kv)
  | None => true
  end.

Definition receipt_shape (v : GoJson.value) : bool :=
  match v with
  | GoJson.JObject members => forallb receipt_member_shape members
  | GoJson.JNull => true
  | _ => false
  end.

(** The body is not a JSON value, or it is one with a field of the wrong
    type. *)
Definition mistyped (body : GoJson.input) : bool :=
  match body with
  | GoJson.Invalid => true
  | GoJson.Document v => negb (receipt_shape v)
  end.

(** No key of the object names the field. *)
Definition lacks_field (f : GoJson.receipt_field) (members : list (string * GoJson.value)) : Prop :=
  forall kv, In kv members -> GoJson.field_of_key GoJson.receipt_fields (fst kv) <> Some f.

(** A well-formed object with neither [retailer] nor [total] nor [items]. *)
Definition sparse_members : list (string * GoJson.value) :=
  [ ("purchaseDate"%string, GoJson.JString "2022-01-01");
    ("purchaseTime"%string, GoJson.JString "14:33") ].
Definition sparse_document : GoJson.input :=
  GoJson.Document (GoJson.JObject sparse_members).

(** A well-formed object whose [items] is a string instead of a list. *)
Definition mistyped_document : GoJson.input :=
  GoJson.Document
    (GoJson.JObject
       [ ("retailer"%string, GoJson.JString "Target");
         ("items"%string, GoJson.JString "none") ]).

(** Every record of the store carries the identifier it is stored under. *)
Definition ids_match_keys (receiptStore : gmap string ProcessedReceipt) : Prop :=
  forall id rec, receiptStore !! id = Some rec -> ID rec = id.

(** ** Definitions for the further properties *)

(** The receipt of the second worked example. *)
Definition corner_market_receipt : Receipt :=
  {| Retailer := "M&M Corner Market";
     PurchaseDate := "2022-03-20";
     PurchaseTime := "14:33";
     Total := "9.00";
     Items :=
       [ {| ShortDescription := "Gatorade"; Price := "2.25" |};
         {| ShortDescription := "Gatorade"; Price := "2.25" |};
         {| ShortDescription := "Gatorade"; Price := "2.25" |};
         {| ShortDescription := "Gatorade"; Price := "2.25" |} ] |}.

(** What an item adds to the running total: the converted bonus when its
    description counts and its price parses, nothing otherwise. *)
Definition item_points (P : Platform) (item : Item) : Z :=
  if description_counts item then
    match GoStrconv.ParseFloat (Price item) with
    | Some price => GoFloat.to_int P (GoMath.Ceil (GoFloat.mul price GoFloat.c0_2))
    | None => 0
    end
  else 0.

(** An ASCII letter or digit. *)
Definition ascii_alnum (b : Z) : bool :=
  GoUnicode.between 0x30 b 0x39 || GoUnicode.between 0x41 b 0x5A
  || GoUnicode.between 0x61 b 0x7A.

(** Every byte of the string is ASCII. *)
Definition is_ascii (s : string) : bool := forallb (fun b => b <? 0x80) (bytes s).

(** Every byte of the string is an ASCII blank (tab, line feed, vertical
    tab, form feed, carriage return or space). *)
Definition ascii_blank (s : string) : bool := forallb GoStrings.asciiSpace (bytes s).

(** An ASCII byte that is not a blank. *)
Definition solid (c : Z) : bool := (c <? 0x80) && negb (GoStrings.asciiSpace c).

(** The string is not empty and both its first and its last byte are solid. *)
Definition solid_ends (s : string) : bool :=
  match bytes s, rev (bytes s) with
  | a :: _, z :: _ => solid a && solid z
  | _, _ => false
  end.

(** The document a client writes for an item and for a receipt: every field
    under its JSON name, in the order of the struct. *)
Definition item_document (item : Item) : GoJson.value :=
  GoJson.JObject
    [ ("shortDescription"%string, GoJson.JString (ShortDescription item));
      ("price"%string, GoJson.JString (Price item)) ].

Definition receipt_document (r : Receipt) : GoJson.input :=
  GoJson.Document
    (GoJson.JObject
       [ ("retailer"%string, GoJson.JString (Retailer r));
         ("purchaseDate"%string, GoJson.JString (PurchaseDate r));
         ("purchaseTime"%string, GoJson.JString (PurchaseTime r));
         ("total"%string, GoJson.JString (Total r));
         ("items"%string, GoJson.JArray (map item_document (Items r))) ]).

(** Bounds of [int] in linear arithmetic goals. *)
Ltac int_bounds := unfold GoInt.min_int, GoInt.max_int in *; lia.

(** * Properties *)

(** ** Arithmetic of [int] *)

Lemma wrap_in_range z : GoInt.min_int <= z <= GoInt.max_int -> GoInt.wrap z = z.
Proof.
  unfold GoInt.wrap, GoInt.min_int, GoInt.max_int. intros H.
  rewrite Z.mod_small; lia.
Qed.

Lemma in_range_spec z :
  GoInt.in_range z = true <-> GoInt.min_int <= z <= GoInt.max_int.
Proof. unfold GoInt.in_range. rewrite andb_true_iff, !Z.leb_le. tauto. Qed.

Lemma add_exact a b :
  GoInt.min_int <= a + b <= GoInt.max_int -> GoInt.add a b = a + b.
Proof. apply wrap_in_range. Qed.

(** ** The end-to-end scenario *)

(** C1 (as amended): on the fixture receipt (retailer "Target", purchase date
    "2022-01-01", purchase time "13:01", total "35.35", the two items
    "Mountain Dew 12PK"/"6.49" and "Emils Cheese Pizza"/"12.25"),
    [calculatePoints] returns exactly 20, on every platform: 6 for the
    retailer, 5 for the pair of items, 3 for the second item and 6 for the odd
    day. *)
Theorem fixture_points : forall P, calculatePoints P fixture_receipt = 20.
Proof. intros P. vm_compute. reflexivity. Qed.

(** C1 as stated fails: on no platform does the fixture score 31. *)
Lemma fixture_points_not_31 : ~ exists P, calculatePoints P fixture_receipt = 31.
Proof. intros [P H]. vm_compute in H. discriminate H. Qed.

(** ** [float64] to [int] *)

Lemma iter_xO_mul (d m : positive) : Zpos (Pos.iter xO m d) = Zpos m * 2 ^ Zpos d.
Proof.
  change (Pos.iter xO m d) with (shift_pos d m).
  rewrite shift_pos_correct. change (Z.pow_pos 2 d) with (2 ^ Zpos d). lia.
Qed.

(** [normalize_exact] keeps the sign and the value: the mantissa is either
    untouched or shifted left by what the exponent loses. *)
Lemma normalize_exact_finite s m e :
  exists m' e', GoFloat.normalize_exact s m e = S754_finite s m' e'
    /\ ((m' = m /\ e' = e) \/ exists d, Zpos m' = Zpos m * 2 ^ Zpos d /\ e' = e - Zpos d).
Proof.
  unfold GoFloat.normalize_exact, shl_align.
  destruct (fexp GoFloat.prec GoFloat.emax (Z.pos (digits2_pos m) + e) - e) as [|d|d] eqn:E.
  - eauto 6.
  - eauto 6.
  - exists (Pos.iter xO m d), (fexp GoFloat.prec GoFloat.emax (Z.pos (digits2_pos m) + e)).
    split; [reflexivity|]. right. exists d. split; [apply iter_xO_mul | lia].
Qed.

Lemma truncZ_normalize_exact s m :
  GoFloat.truncZ (GoFloat.normalize_exact s m 0) = if s then Zneg m else Zpos m.
Proof.
  destruct (normalize_exact_finite s m 0) as (m' & e' & -> & [[-> ->] | (d & Hm & ->)]).
  - simpl. destruct s; reflexivity.
  - simpl. rewrite Hm, Z.div_mul by (apply Z.pow_nonzero; lia). destruct s; reflexivity.
Qed.

Lemma truncZ_of_int_exact s z : GoFloat.truncZ (GoFloat.of_int_exact s z) = z.
Proof.
  destruct z; simpl; [reflexivity | |];
  [apply (truncZ_normalize_exact false p) | apply (truncZ_normalize_exact true p)].
Qed.

Lemma is_finite_of_int_exact s z : GoFloat.is_finite (GoFloat.of_int_exact s z) = true.
Proof.
  destruct z as [|p|p]; simpl; [reflexivity | |];
  [destruct (normalize_exact_finite false p 0) as (m' & e' & -> & _)
  |destruct (normalize_exact_finite true p 0) as (m' & e' & -> & _)]; reflexivity.
Qed.

(** On a float without fractional bits, truncation and ceiling agree. *)
Lemma truncZ_ceilZ_integer s m e :
  0 <= e -> GoFloat.truncZ (S754_finite s m e) = GoFloat.ceilZ (S754_finite s m e).
Proof.
  intros He. destruct e as [|p|p]; [| |lia]; destruct s; simpl; lia.
Qed.

(** [int(math.Ceil(y))] is the ceiling of [y] whenever that fits an [int]. *)
Lemma to_int_Ceil P y :
  GoFloat.is_finite y = true ->
  GoInt.in_range (GoFloat.ceilZ y) = true ->
  GoFloat.to_int P (GoMath.Ceil y) = GoFloat.ceilZ y.
Proof.
  intros Hf Hr. unfold GoFloat.to_int.
  destruct y as [s | s | | s m e]; try discriminate Hf.
  - reflexivity.
  - destruct e as [|p|p].
    + unfold GoMath.Ceil. rewrite Hf.
      rewrite (truncZ_ceilZ_integer s m 0), Hr by lia. reflexivity.
    + unfold GoMath.Ceil. rewrite Hf.
      rewrite (truncZ_ceilZ_integer s m (Zpos p)), Hr by lia. reflexivity.
    + unfold GoMath.Ceil.
      rewrite is_finite_of_int_exact, truncZ_of_int_exact, Hr. reflexivity.
Qed.

(** Rounding keeps the sign it is given. *)
Lemma binary_round_aux_sign sx mx ex lx :
  let r := binary_round_aux GoFloat.prec GoFloat.emax sx mx ex lx in
  r = S754_zero sx \/ (exists m e, r = S754_finite sx m e)
  \/ r = S754_infinity sx \/ r = S754_nan.
Proof.
  unfold binary_round_aux.
  destruct (shr_fexp _ _ mx ex lx) as [mrs' e'].
  destruct (shr_fexp _ _ _ e' loc_Exact) as [mrs'' e''].
  destruct (shr_m mrs'') as [|m|m]; [tauto | | tauto].
  destruct (e'' <=? GoFloat.emax - GoFloat.prec); eauto 6.
Qed.

Lemma ceilZ_positive m e : 0 <= GoFloat.ceilZ (S754_finite false m e).
Proof.
  destruct e as [|p|p]; simpl; [lia | lia |].
  assert (0 < 2 ^ Zpos p) by (apply Z.pow_pos_nonneg; lia).
  change (- Z.pos m) with (Zneg m).
  enough (Zneg m / 2 ^ Zpos p < 1) by lia. apply Z.div_lt_upper_bound; lia.
Qed.

Lemma c0_2_value : GoFloat.c0_2 = S754_finite false 7205759403792794 (-55).
Proof. vm_compute. reflexivity. Qed.

(** A price that is at least zero earns a bonus that is at least zero. *)
Lemma bonus_nonnegative price :
  GoFloat.leb GoFloat.zero price = true ->
  GoFloat.is_finite (GoFloat.mul price GoFloat.c0_2) = true ->
  0 <= GoFloat.ceilZ (GoFloat.mul price GoFloat.c0_2).
Proof.
  rewrite c0_2_value.
  destruct price as [s | s | | [|] m e]; try (intros H; discriminate H).
  - intros _ _. simpl. lia.
  - intros _ H. discriminate H.
  - intros _.
    change (GoFloat.mul (S754_finite false m e) (S754_finite false 7205759403792794 (-55)))
      with (binary_round_aux GoFloat.prec GoFloat.emax false
              (Z.pos (m * 7205759403792794)) (e + -55) loc_Exact).
    destruct (binary_round_aux_sign false (Z.pos (m * 7205759403792794)) (e + -55) loc_Exact)
      as [-> | [(m' & e' & ->) | [-> | ->]]]; intros H; try discriminate H.
    + simpl. lia.
    + apply ceilZ_positive.
Qed.

(** ** Each rule adds an amount that does not depend on the running total *)

Lemma add_nonneg tp k :
  0 <= tp -> 0 <= k -> tp + k <= GoInt.max_int -> GoInt.add tp k = tp + k.
Proof. intros. apply add_exact. int_bounds. Qed.

Lemma retailer_rule_exact P r tp :
  0 <= tp -> tp + retailer_count P r <= GoInt.max_int ->
  retailer_rule P tp r = tp + retailer_count P r.
Proof.
  unfold retailer_rule, retailer_count.
  generalize (GoUtf8.runes (Retailer r)) as l. intros l. revert tp.
  induction l as [|c l IH]; intros tp Htp Hb; cbn [fold_left List.filter] in *.
  - simpl. lia.
  - destruct (GoUnicode.IsLetter P c || GoUnicode.IsDigit P c).
    + cbn [length] in *. rewrite Nat2Z.inj_succ in *.
      rewrite add_nonneg by lia. rewrite IH by lia. lia.
    + apply IH; lia.
Qed.

Lemma total_rules_values r :
  total_rules 0 r = 0 \/ total_rules 0 r = 25 \/ total_rules 0 r = 50 \/ total_rules 0 r = 75.
Proof.
  unfold total_rules. destruct (GoStrconv.ParseFloat (Total r)) as [total|]; [|tauto].
  destruct (GoFloat.eqb total (GoMath.Trunc total));
  destruct (GoFloat.eqb (GoMath.Mod total GoFloat.c0_25) GoFloat.zero);
  vm_compute; tauto.
Qed.

Lemma total_rules_exact r tp :
  0 <= tp -> tp + total_rules 0 r <= GoInt.max_int ->
  total_rules tp r = tp + total_rules 0 r.
Proof.
  unfold total_rules. destruct (GoStrconv.ParseFloat (Total r)) as [total|]; [|lia].
  destruct (GoFloat.eqb total (GoMath.Trunc total));
  destruct (GoFloat.eqb (GoMath.Mod total GoFloat.c0_25) GoFloat.zero);
  change (GoInt.add (GoInt.add 0 50) 25) with 75; change (GoInt.add 0 50) with 50;
  change (GoInt.add 0 25) with 25; intros Htp Hb;
  rewrite ?(add_nonneg tp 50), ?(add_nonneg tp 25), ?(add_nonneg (tp + 50) 25) by lia; lia.
Qed.

Lemma pairs_rule_exact r tp :
  0 <= tp -> tp + 5 * (Z.of_nat (length (Items r)) / 2) <= GoInt.max_int ->
  pairs_rule tp r = tp + 5 * (Z.of_nat (length (Items r)) / 2).
Proof.
  unfold pairs_rule, GoInt.quo, GoInt.mul. intros Htp Hb.
  set (n := Z.of_nat (length (Items r))) in *.
  assert (Hn : 0 <= n) by (subst n; lia).
  rewrite Z.quot_div_nonneg by lia.
  assert (0 <= n / 2) by (apply Z.div_pos; lia).
  rewrite (wrap_in_range (n / 2)) by int_bounds.
  rewrite (wrap_in_range (n / 2 * 5)) by int_bounds.
  rewrite add_nonneg by lia. lia.
Qed.

Lemma item_bonus_nonneg item :
  (forall price,
     description_counts item = true ->
     GoStrconv.ParseFloat (Price item) = Some price ->
     GoFloat.leb GoFloat.zero price = true /\
     GoFloat.is_finite (GoFloat.mul price GoFloat.c0_2) = true) ->
  0 <= item_bonus item.
Proof.
  intros H. unfold item_bonus, bonus_product.
  destruct (description_counts item); [|lia].
  destruct (GoStrconv.ParseFloat (Price item)) as [price|]; [|lia].
  destruct (H price eq_refl eq_refl). now apply bonus_nonnegative.
Qed.

Lemma item_rule_exact P item tp :
  (forall price,
     description_counts item = true ->
     GoStrconv.ParseFloat (Price item) = Some price ->
     GoFloat.leb GoFloat.zero price = true /\
     GoFloat.is_finite (GoFloat.mul price GoFloat.c0_2) = true) ->
  0 <= tp -> tp + item_bonus item <= GoInt.max_int ->
  item_rule P tp item = tp + item_bonus item.
Proof.
  intros H Htp. pose proof (item_bonus_nonneg item H) as Hnn. revert Hnn.
  unfold item_rule, item_bonus, bonus_product, description_counts in *.
  unfold GoInt.rem.
  destruct (Z.rem (len (GoStrings.TrimSpace (ShortDescription item))) 3 =? 0); [|lia].
  destruct (GoStrconv.ParseFloat (Price item)) as [price|]; [|lia].
  destruct (H price eq_refl eq_refl) as [_ Hfin]. intros Hnn Hb.
  rewrite to_int_Ceil; [apply add_nonneg; lia | exact Hfin |].
  apply in_range_spec. int_bounds.
Qed.

Lemma items_bonus_nonneg items :
  (forall item price,
     In item items ->
     description_counts item = true ->
     GoStrconv.ParseFloat (Price item) = Some price ->
     GoFloat.leb GoFloat.zero price = true /\
     GoFloat.is_finite (GoFloat.mul price GoFloat.c0_2) = true) ->
  0 <= fold_right (fun item acc => item_bonus item + acc) 0 items.
Proof.
  induction items as [|item items IH]; intros H; simpl.
  - lia.
  - assert (0 <= item_bonus item)
      by (apply item_bonus_nonneg; intros; eapply H; simpl; eauto).
    assert (0 <= fold_right (fun item acc => item_bonus item + acc) 0 items)
      by (apply IH; intros; eapply H; simpl; eauto).
    lia.
Qed.

Lemma items_fold_exact P items tp :
  (forall item price,
     In item items ->
     description_counts item = true ->
     GoStrconv.ParseFloat (Price item) = Some price ->
     GoFloat.leb GoFloat.zero price = true /\
     GoFloat.is_finite (GoFloat.mul price GoFloat.c0_2) = true) ->
  0 <= tp ->
  tp + fold_right (fun item acc => item_bonus item + acc) 0 items <= GoInt.max_int ->
  fold_left (item_rule P) items tp
  = tp + fold_right (fun item acc => item_bonus item + acc) 0 items.
Proof.
  revert tp. induction items as [|item items IH]; intros tp H Htp Hb; simpl in *.
  - lia.
  - assert (Hi : 0 <= item_bonus item)
      by (apply item_bonus_nonneg; intros; eapply H; eauto).
    assert (Hs : 0 <= fold_right (fun item acc => item_bonus item + acc) 0 items)
      by (apply items_bonus_nonneg; intros; eapply H; eauto).
    rewrite item_rule_exact; [| intros; eapply H; eauto | lia | lia].
    rewrite IH; [lia | intros; eapply H; eauto | lia | lia].
Qed.

Lemma date_rule_values r : date_rule 0 r = 0 \/ date_rule 0 r = 6.
Proof.
  unfold date_rule.
  destruct (GoTime.Parse GoTime.layout_2006_01_02 (PurchaseDate r)) as [d|]; [|tauto].
  destruct (GoInt.rem (GoTime.Day d) 2 =? 1); vm_compute; tauto.
Qed.

Lemma date_rule_exact r tp :
  0 <= tp -> tp + date_rule 0 r <= GoInt.max_int ->
  date_rule tp r = tp + date_rule 0 r.
Proof.
  unfold date_rule.
  destruct (GoTime.Parse GoTime.layout_2006_01_02 (PurchaseDate r)) as [d|]; [|lia].
  destruct (GoInt.rem (GoTime.Day d) 2 =? 1); [|lia].
  change (GoInt.add 0 6) with 6. intros. rewrite add_nonneg by lia. lia.
Qed.

Lemma time_rule_values r : time_rule 0 r = 0 \/ time_rule 0 r = 10.
Proof.
  unfold time_rule.
  destruct (GoTime.Parse GoTime.layout_15_04 (PurchaseTime r)) as [t|]; [|tauto].
  destruct (GoTime.Clock t) as [hour minute].
  destruct ((14 * 60 <=? GoInt.add (GoInt.mul hour 60) minute)
            && (GoInt.add (GoInt.mul hour 60) minute <? 16 * 60)); [|tauto].
  right. reflexivity.
Qed.

Lemma time_rule_exact r tp :
  0 <= tp -> tp + time_rule 0 r <= GoInt.max_int ->
  time_rule tp r = tp + time_rule 0 r.
Proof.
  unfold time_rule.
  destruct (GoTime.Parse GoTime.layout_15_04 (PurchaseTime r)) as [t|]; [|lia].
  destruct (GoTime.Clock t) as [hour minute].
  destruct ((14 * 60 <=? GoInt.add (GoInt.mul hour 60) minute)
            && (GoInt.add (GoInt.mul hour 60) minute <? 16 * 60)); [|lia].
  change (GoInt.add 0 10) with 10. intros. rewrite add_nonneg by lia. lia.
Qed.


(** ** Non-negative scores *)

(** C4 (as amended): for every receipt in which every price that earns a
    bonus is at least zero (with a finite product with 0.2), and whose point
    sum over the integers fits an [int], [calculatePoints] returns exactly
    that sum, which is non-negative, whether or not the other fields parse.
    (The claim as stated also covers negative prices, for which it fails.) *)
Theorem points_nonnegative P r :
  prices_nonnegative r ->
  exact_points P r <= GoInt.max_int ->
  calculatePoints P r = exact_points P r /\ 0 <= calculatePoints P r.
Proof.
  unfold prices_nonnegative, exact_points, calculatePoints, items_rule. intros Hp Hb.
  pose proof (items_bonus_nonneg (Items r) Hp) as Hs.
  set (a := retailer_count P r) in *.
  set (s := fold_right (fun item acc => item_bonus item + acc) 0 (Items r)) in *.
  assert (Ha : 0 <= a) by (subst a; unfold retailer_count; lia).
  assert (Hn : 0 <= 5 * (Z.of_nat (length (Items r)) / 2))
    by (apply Z.mul_nonneg_nonneg; [lia | apply Z.div_pos; lia]).
  pose proof (total_rules_values r) as Ht.
  pose proof (date_rule_values r) as Hd.
  pose proof (time_rule_values r) as Hc.
  rewrite (retailer_rule_exact P r 0) by (fold a; lia). fold a.
  rewrite total_rules_exact by lia.
  rewrite pairs_rule_exact by lia.
  rewrite (items_fold_exact P (Items r)) by (try exact Hp; fold s; lia). fold s.
  rewrite date_rule_exact by lia.
  rewrite time_rule_exact by lia.
  lia.
Qed.

(** The fixture receipt meets both hypotheses: its prices are positive and
    its 20 points fit an [int]. *)
Lemma points_nonnegative_witness :
  prices_nonnegative fixture_receipt /\
  exact_points amd64_latin1 fixture_receipt <= GoInt.max_int /\
  calculatePoints amd64_latin1 fixture_receipt = exact_points amd64_latin1 fixture_receipt /\
  0 <= calculatePoints amd64_latin1 fixture_receipt.
Proof.
  assert (H1 : prices_nonnegative fixture_receipt).
  { intros item price [<- | [<- | []]] Hc Hp; vm_compute in Hc, Hp;
      [discriminate Hc |]. injection Hp as <-. split; reflexivity. }
  assert (H2 : exact_points amd64_latin1 fixture_receipt <= GoInt.max_int).
  { vm_compute. discriminate. }
  exact (conj H1 (conj H2 (points_nonnegative amd64_latin1 fixture_receipt H1 H2))).
Defined.

(** C4 as stated fails: every field of [refund_receipt] parses, and its one
    item, priced "-10.00" with a three-byte description, brings the score to
    [ceil(-10 * 0.2) = -2] on every platform. *)
Lemma refund_receipt_negative :
  fields_parse refund_receipt = true /\
  forall P, calculatePoints P refund_receipt = -2.
Proof. split; [vm_compute; reflexivity | intros P; vm_compute; reflexivity]. Qed.

(** ** The description-length bonus *)

Lemma item_rule_unparsed P tp item :
  GoStrconv.ParseFloat (Price item) = None -> item_rule P tp item = tp.
Proof.
  intros H. unfold item_rule. rewrite H.
  destruct (GoInt.rem _ 3 =? 0); reflexivity.
Qed.

(** C7 (as amended): for every item whose trimmed description has a length
    that is a multiple of 3 (zero included) and whose price parses, if the
    ceiling of [price * 0.2] (the binary64 product) is a finite value within
    the range of [int], the item adds exactly that ceiling to the running
    total (so from zero the total is the ceiling); the fixture's second item
    adds 3; an item whose price does not parse adds nothing, and the items
    before and after it are scored as if it were not there. *)
Theorem item_bonus_is_ceiling P :
  (forall tp item price,
      description_counts item = true ->
      GoStrconv.ParseFloat (Price item) = Some price ->
      GoFloat.is_finite (GoFloat.mul price GoFloat.c0_2) = true ->
      GoInt.in_range (GoFloat.ceilZ (GoFloat.mul price GoFloat.c0_2)) = true ->
      item_rule P tp item = GoInt.add tp (GoFloat.ceilZ (GoFloat.mul price GoFloat.c0_2))
      /\ item_rule P 0 item = GoFloat.ceilZ (GoFloat.mul price GoFloat.c0_2))
  /\ (forall tp, item_rule P tp pizza_item = GoInt.add tp 3)
  /\ (forall tp item,
        GoStrconv.ParseFloat (Price item) = None -> item_rule P tp item = tp)
  /\ (forall tp r before item after,
        GoStrconv.ParseFloat (Price item) = None ->
        items_rule P tp (with_Items r (before ++ item :: after))
        = items_rule P tp (with_Items r (before ++ after))).
Proof.
  split; [|split; [|split]].
  - intros tp item price Hc Hp Hf Hr.
    assert (Hrule : forall tp', item_rule P tp' item
                      = GoInt.add tp' (GoFloat.ceilZ (GoFloat.mul price GoFloat.c0_2))).
    { intros tp'. unfold item_rule. unfold description_counts in Hc. unfold GoInt.rem.
      rewrite Hc, Hp, to_int_Ceil by assumption. reflexivity. }
    split; [apply Hrule |].
    rewrite Hrule. apply add_exact. apply in_range_spec in Hr. lia.
  - intros tp. unfold item_rule.
    replace (GoInt.rem (len (GoStrings.TrimSpace (ShortDescription pizza_item))) 3 =? 0)
      with true by (vm_compute; reflexivity).
    replace (GoStrconv.ParseFloat (Price pizza_item))
      with (Some (S754_finite false 6896136929411072 (-49))) by (vm_compute; reflexivity).
    replace (GoFloat.to_int P
               (GoMath.Ceil (GoFloat.mul (S754_finite false 6896136929411072 (-49)) GoFloat.c0_2)))
      with 3 by (vm_compute; reflexivity).
    reflexivity.
  - intros tp item. apply item_rule_unparsed.
  - intros tp r before item after H. unfold items_rule. cbn [Items with_Items].
    rewrite !fold_left_app. cbn [fold_left]. rewrite item_rule_unparsed by exact H.
    reflexivity.
Qed.

Lemma wrap_bounds z : GoInt.min_int <= GoInt.wrap z <= GoInt.max_int.
Proof.
  unfold GoInt.wrap, GoInt.min_int, GoInt.max_int.
  pose proof (Z.mod_pos_bound (z + 2 ^ 63) (2 ^ 64)). lia.
Qed.

(** C7 as stated fails: the description of [huge_item] has three bytes and
    its price "1e300" parses, but the ceiling of its product with 0.2 is
    beyond the largest [int], so on no platform is it what the item adds. *)
Lemma huge_item_out_of_reach :
  description_counts huge_item = true /\
  exists price,
    GoStrconv.ParseFloat (Price huge_item) = Some price /\
    GoFloat.is_finite (GoFloat.mul price GoFloat.c0_2) = true /\
    GoInt.max_int < GoFloat.ceilZ (GoFloat.mul price GoFloat.c0_2) /\
    (forall P, item_rule P 0 huge_item <= GoInt.max_int) /\
    ~ exists P, item_rule P 0 huge_item = GoFloat.ceilZ (GoFloat.mul price GoFloat.c0_2).
Proof.
  split; [vm_compute; reflexivity |].
  eexists. split; [vm_compute; reflexivity |].
  split; [vm_compute; reflexivity |].
  split; [vm_compute; reflexivity |].
  assert (Hle : forall P, item_rule P 0 huge_item <= GoInt.max_int).
  { intros P. unfold item_rule.
    destruct (GoInt.rem _ 3 =? 0); [|vm_compute; discriminate].
    destruct (GoStrconv.ParseFloat (Price huge_item)); [|vm_compute; discriminate].
    apply wrap_bounds. }
  split; [exact Hle |].
  intros [P H]. specialize (Hle P). rewrite H in Hle. vm_compute in Hle. apply Hle. reflexivity.
Qed.

(** The fixture's second item meets the four hypotheses of the first part,
    and from a running total of 17 it adds the ceiling of its product, 3. *)
Lemma item_bonus_is_ceiling_witness :
  description_counts pizza_item = true
  /\ GoStrconv.ParseFloat (Price pizza_item) = Some (S754_finite false 6896136929411072 (-49))
  /\ item_rule amd64_latin1 17 pizza_item = 20.
Proof.
  assert (H1 : description_counts pizza_item = true) by (vm_compute; reflexivity).
  assert (H2 : GoStrconv.ParseFloat (Price pizza_item)
               = Some (S754_finite false 6896136929411072 (-49))) by (vm_compute; reflexivity).
  assert (H3 : GoFloat.is_finite
                 (GoFloat.mul (S754_finite false 6896136929411072 (-49)) GoFloat.c0_2) = true)
    by (vm_compute; reflexivity).
  assert (H4 : GoInt.in_range
                 (GoFloat.ceilZ
                    (GoFloat.mul (S754_finite false 6896136929411072 (-49)) GoFloat.c0_2)) = true)
    by (vm_compute; reflexivity).
  split; [exact H1 |]. split; [exact H2 |].
  exact (eq_trans
           (proj1 (proj1 (item_bonus_is_ceiling amd64_latin1) 17 pizza_item _ H1 H2 H3 H4))
           eq_refl).
Defined.

(** ** The two rules on the total *)

(** C5: the round-dollar and quarter-multiple rules are tested one after the
    other on the same parsed total and both can add their points: with total
    "35.00" the two rules add 50 and then 25 to the running total, 75 from
    zero; the same with "9.00"; with "2.99" they leave the running total as
    it is; with "0.75" only the second adds its 25; a total that does not
    parse leaves the running total as it is too, and [calculatePoints] goes
    on with the remaining rules. *)
Theorem total_rules_round_and_quarter :
  (forall tp r,
      total_rules tp (with_Total r "35.00") = GoInt.add (GoInt.add tp 50) 25
      /\ total_rules 0 (with_Total r "35.00") = 75)
  /\ (forall tp r,
        total_rules tp (with_Total r "9.00") = GoInt.add (GoInt.add tp 50) 25
        /\ total_rules 0 (with_Total r "9.00") = 75)
  /\ (forall tp r, total_rules tp (with_Total r "2.99") = tp)
  /\ (forall tp r, total_rules tp (with_Total r "0.75") = GoInt.add tp 25)
  /\ (forall tp r,
        GoStrconv.ParseFloat (Total r) = None -> total_rules tp r = tp)
  /\ (forall P r,
        GoStrconv.ParseFloat (Total r) = None ->
        calculatePoints P r
        = time_rule (date_rule (items_rule P (pairs_rule (retailer_rule P 0 r) r) r) r) r).
Proof.
  split; [|split; [|split; [|split; [|split]]]].
  - intros tp r. split; [|vm_compute; reflexivity].
    unfold total_rules. cbn [Total with_Total].
    replace (GoStrconv.ParseFloat "35.00")
      with (Some (S754_finite false 4925812092436480 (-47))) by (vm_compute; reflexivity).
    replace (GoFloat.eqb _ (GoMath.Trunc _)) with true by (vm_compute; reflexivity).
    replace (GoFloat.eqb (GoMath.Mod _ GoFloat.c0_25) GoFloat.zero)
      with true by (vm_compute; reflexivity).
    reflexivity.
  - intros tp r. split; [|vm_compute; reflexivity].
    unfold total_rules. cbn [Total with_Total].
    replace (GoStrconv.ParseFloat "9.00")
      with (Some (S754_finite false 5066549580791808 (-49))) by (vm_compute; reflexivity).
    replace (GoFloat.eqb _ (GoMath.Trunc _)) with true by (vm_compute; reflexivity).
    replace (GoFloat.eqb (GoMath.Mod _ GoFloat.c0_25) GoFloat.zero)
      with true by (vm_compute; reflexivity).
    reflexivity.
  - intros tp r.
    unfold total_rules. cbn [Total with_Total].
    replace (GoStrconv.ParseFloat "2.99")
      with (Some (S754_finite false 6732881442918892 (-51))) by (vm_compute; reflexivity).
    replace (GoFloat.eqb _ (GoMath.Trunc _)) with false by (vm_compute; reflexivity).
    replace (GoFloat.eqb (GoMath.Mod _ GoFloat.c0_25) GoFloat.zero)
      with false by (vm_compute; reflexivity).
    reflexivity.
  - intros tp r.
    unfold total_rules. cbn [Total with_Total].
    replace (GoStrconv.ParseFloat "0.75")
      with (Some (S754_finite false 6755399441055744 (-53))) by (vm_compute; reflexivity).
    replace (GoFloat.eqb _ (GoMath.Trunc _)) with false by (vm_compute; reflexivity).
    replace (GoFloat.eqb (GoMath.Mod _ GoFloat.c0_25) GoFloat.zero)
      with true by (vm_compute; reflexivity).
    reflexivity.
  - intros tp r H. unfold total_rules. rewrite H. reflexivity.
  - intros P r H. unfold calculatePoints.
    unfold total_rules at 1. rewrite H. reflexivity.
Qed.

(** A total that is not a number: "thirty" does not parse, and the two rules
    leave a running total of 6 as it is. *)
Lemma total_rules_round_and_quarter_witness :
  GoStrconv.ParseFloat (Total (with_Total fixture_receipt "thirty")) = None
  /\ total_rules 6 (with_Total fixture_receipt "thirty") = 6.
Proof.
  assert (H : GoStrconv.ParseFloat (Total (with_Total fixture_receipt "thirty")) = None)
    by (vm_compute; reflexivity).
  exact (conj H
           (proj1 (proj2 (proj2 (proj2 (proj2 total_rules_round_and_quarter))))
              6 (with_Total fixture_receipt "thirty") H)).
Defined.

(** ** The afternoon window *)

Lemma getnum_range s fixed n rest :
  GoTime.getnum s fixed = Some (n, rest) -> 0 <= n <= 99.
Proof.
  unfold GoTime.getnum, GoTime.isDigit.
  destruct s as [|c0 [|c1 s']]; cbn [nth_error nth negb]; try discriminate.
  - destruct ((48 <=? c0) && (c0 <=? 57)) eqn:E0; cbn [negb]; [|discriminate].
    destruct fixed; [discriminate|]. intros [= <- <-].
    apply andb_true_iff in E0. lia.
  - destruct ((48 <=? c0) && (c0 <=? 57)) eqn:E0; cbn [negb]; [|discriminate].
    apply andb_true_iff in E0.
    destruct ((48 <=? c1) && (c1 <=? 57)) eqn:E1; cbn [negb].
    + apply andb_true_iff in E1. intros [= <- <-]. lia.
    + destruct fixed; [discriminate|]. intros [= <- <-]. lia.
Qed.

Lemma Parse_15_04_range s t :
  GoTime.Parse GoTime.layout_15_04 s = Some t ->
  0 <= GoTime.t_hour t < 24 /\ 0 <= GoTime.t_min t < 60.
Proof.
  unfold GoTime.Parse, GoTime.layout_15_04. cbn [GoTime.parse_chunks].
  destruct (GoTime.getnum (bytes s) false) as [[hour v1]|]; [|discriminate].
  destruct ((hour <? 0) || (24 <=? hour)) eqn:Eh; [discriminate|].
  destruct (GoTime.skip v1 [58]) as [v2|]; [|discriminate].
  destruct (GoTime.getnum v2 true) as [[min v3]|]; [|discriminate].
  destruct ((min <? 0) || (60 <=? min)) eqn:Em; [discriminate|].
  destruct v3; [|discriminate].
  cbn. intros [= <-]. cbn.
  apply orb_false_iff in Eh, Em. lia.
Qed.

(** C6: when the purchase time parses, its minutes since midnight lie in
    [0, 1440) and the afternoon rule adds 10 to the running total if they lie
    in [840, 960) and nothing otherwise; a time that does not parse adds
    nothing.  "14:00" (840 minutes) and "14:33" add 10; "16:00" (960) and
    "13:59" (839) add nothing; "2:30 PM" does not parse and adds nothing. *)
Theorem time_rule_afternoon_window :
  (forall tp r minutes,
      minutes_since_midnight (PurchaseTime r) = Some minutes ->
      0 <= minutes < 1440 /\
      time_rule tp r
      = if (840 <=? minutes) && (minutes <? 960) then GoInt.add tp 10 else tp)
  /\ (forall tp r,
        minutes_since_midnight (PurchaseTime r) = None -> time_rule tp r = tp)
  /\ (forall tp r,
        time_rule tp (with_PurchaseTime r "14:00") = GoInt.add tp 10
        /\ time_rule tp (with_PurchaseTime r "14:33") = GoInt.add tp 10
        /\ time_rule tp (with_PurchaseTime r "16:00") = tp
        /\ time_rule tp (with_PurchaseTime r "13:59") = tp
        /\ time_rule tp (with_PurchaseTime r "2:30 PM") = tp)
  /\ minutes_since_midnight "14:00" = Some 840
  /\ minutes_since_midnight "14:33" = Some 873
  /\ minutes_since_midnight "16:00" = Some 960
  /\ minutes_since_midnight "13:59" = Some 839
  /\ minutes_since_midnight "2:30 PM" = None.
Proof.
  assert (Hgen : forall tp r minutes,
             minutes_since_midnight (PurchaseTime r) = Some minutes ->
             0 <= minutes < 1440 /\
             time_rule tp r
             = if (840 <=? minutes) && (minutes <? 960) then GoInt.add tp 10 else tp).
  { intros tp r minutes. unfold minutes_since_midnight, time_rule.
    destruct (GoTime.Parse GoTime.layout_15_04 (PurchaseTime r)) as [t|] eqn:E; [|discriminate].
    apply Parse_15_04_range in E. unfold GoTime.Clock.
    intros [= <-].
    unfold GoInt.add at 1 2, GoInt.mul.
    rewrite (wrap_in_range (GoTime.t_hour t * 60))
      by (unfold GoInt.min_int, GoInt.max_int; lia).
    rewrite (wrap_in_range (GoTime.t_hour t * 60 + GoTime.t_min t))
      by (unfold GoInt.min_int, GoInt.max_int; lia).
    split; [lia | reflexivity]. }
  assert (Hnone : forall tp r,
             minutes_since_midnight (PurchaseTime r) = None -> time_rule tp r = tp).
  { intros tp r. unfold minutes_since_midnight, time_rule.
    destruct (GoTime.Parse GoTime.layout_15_04 (PurchaseTime r)) as [t|]; [|reflexivity].
    destruct (GoTime.Clock t). discriminate. }
  split; [exact Hgen |]. split; [exact Hnone |].
  split; [| repeat (split; [vm_compute; reflexivity |]); vm_compute; reflexivity].
  intros tp r.
  split; [apply (Hgen tp (with_PurchaseTime r "14:00") 840); vm_compute; reflexivity |].
  split; [apply (Hgen tp (with_PurchaseTime r "14:33") 873); vm_compute; reflexivity |].
  split; [apply (Hgen tp (with_PurchaseTime r "16:00") 960); vm_compute; reflexivity |].
  split; [apply (Hgen tp (with_PurchaseTime r "13:59") 839); vm_compute; reflexivity |].
  apply Hnone. vm_compute. reflexivity.
Qed.

(** The fixture's purchase time, "13:01", is 781 minutes after midnight,
    outside the window: the rule leaves a running total of 20 as it is. *)
Lemma time_rule_afternoon_window_witness :
  minutes_since_midnight (PurchaseTime fixture_receipt) = Some 781
  /\ 0 <= 781 < 1440
  /\ time_rule 20 fixture_receipt = 20.
Proof.
  assert (H : minutes_since_midnight (PurchaseTime fixture_receipt) = Some 781)
    by (vm_compute; reflexivity).
  split; [exact H |].
  exact (proj1 time_rule_afternoon_window 20 fixture_receipt 781 H).
Defined.

(** ** Bytes, not characters *)

Lemma len_bytes s : len s = Z.of_nat (length (bytes s)).
Proof.
  unfold len, bytes. rewrite length_map. f_equal.
  induction s as [|c s IH]; simpl; [reflexivity | now rewrite IH].
Qed.

(** C9: the description-length rule counts the bytes of the trimmed
    description: an item earns [int(ceil(price * 0.2))] iff that number of
    bytes is a multiple of 3.  This differs from counting characters: a
    description of one three-byte character earns the bonus (3 points at
    price "12.25"), and one of three characters in four bytes earns none. *)
Theorem description_length_in_bytes :
  (forall item,
      description_counts item = true
      <-> Z.rem (Z.of_nat (length (bytes (GoStrings.TrimSpace (ShortDescription item))))) 3 = 0)
  /\ (forall P tp item,
        item_rule P tp item
        = if description_counts item then
            match GoStrconv.ParseFloat (Price item) with
            | Some price =>
                GoInt.add tp (GoFloat.to_int P (GoMath.Ceil (GoFloat.mul price GoFloat.c0_2)))
            | None => tp
            end
          else tp)
  /\ (GoUtf8.RuneCountInString (GoStrings.TrimSpace one_rune_three_bytes) = 1
      /\ len (GoStrings.TrimSpace one_rune_three_bytes) = 3
      /\ forall P tp,
           item_rule P tp {| ShortDescription := one_rune_three_bytes; Price := "12.25" |}
           = GoInt.add tp 3)
  /\ (GoUtf8.RuneCountInString (GoStrings.TrimSpace three_runes_four_bytes) = 3
      /\ len (GoStrings.TrimSpace three_runes_four_bytes) = 4
      /\ forall P tp,
           item_rule P tp {| ShortDescription := three_runes_four_bytes; Price := "12.25" |}
           = tp).
Proof.
  split; [|split; [|split]].
  - intros item. unfold description_counts. rewrite len_bytes. apply Z.eqb_eq.
  - intros P tp item. reflexivity.
  - split; [vm_compute; reflexivity |]. split; [vm_compute; reflexivity |].
    intros P tp. unfold item_rule. cbn [ShortDescription Price].
    replace (GoInt.rem (len (GoStrings.TrimSpace one_rune_three_bytes)) 3 =? 0)
      with true by (vm_compute; reflexivity).
    replace (GoStrconv.ParseFloat "12.25")
      with (Some (S754_finite false 6896136929411072 (-49))) by (vm_compute; reflexivity).
    replace (GoFloat.to_int P
               (GoMath.Ceil (GoFloat.mul (S754_finite false 6896136929411072 (-49)) GoFloat.c0_2)))
      with 3 by (vm_compute; reflexivity).
    reflexivity.
  - split; [vm_compute; reflexivity |]. split; [vm_compute; reflexivity |].
    intros P tp. unfold item_rule. cbn [ShortDescription Price].
    replace (GoInt.rem (len (GoStrings.TrimSpace three_runes_four_bytes)) 3 =? 0)
      with false by (vm_compute; reflexivity).
    reflexivity.
Qed.

(** ** The decoder rejects exactly the documents of the wrong shape *)

Lemma store_string_error cur v :
  snd (GoJson.store_string cur v) = negb (string_shape v).
Proof. destruct v; reflexivity. Qed.

Lemma item_members_error members item err :
  snd (fold_left GoJson.item_member members (item, err))
  = err || negb (forallb item_member_shape members).
Proof.
  revert item err. induction members as [|kv members IH]; intros item err.
  - simpl. now rewrite orb_false_r.
  - cbn [fold_left forallb]. unfold GoJson.item_member at 2, item_member_shape at 1.
    destruct (GoJson.field_of_key GoJson.item_fields (fst kv)) as [[|]|].
    + pose proof (store_string_error (ShortDescription item) (snd kv)) as E.
      destruct (GoJson.store_string (ShortDescription item) (snd kv)) as [s e].
      simpl in E. subst e. rewrite IH.
      destruct err, (string_shape (snd kv)); reflexivity.
    + pose proof (store_string_error (Price item) (snd kv)) as E.
      destruct (GoJson.store_string (Price item) (snd kv)) as [s e].
      simpl in E. subst e. rewrite IH.
      destruct err, (string_shape (snd kv)); reflexivity.
    + rewrite IH. reflexivity.
Qed.

Lemma store_Item_error cur v :
  snd (GoJson.store_Item cur v) = negb (item_shape v).
Proof.
  destruct v; try reflexivity.
  simpl. apply item_members_error.
Qed.

Lemma store_elements_error s i l :
  snd (GoJson.store_elements s i l) = negb (forallb item_shape l).
Proof.
  revert s i. induction l as [|v l IH]; intros s i.
  - reflexivity.
  - cbn [GoJson.store_elements forallb].
    pose proof (store_Item_error (nth i (GoJson.backing s) GoJson.zero_Item) v) as E.
    destruct (GoJson.store_Item (nth i (GoJson.backing s) GoJson.zero_Item) v) as [item e].
    simpl in E. subst e.
    match goal with |- context [GoJson.store_elements ?s' (S i) l] =>
      specialize (IH s' (S i)); destruct (GoJson.store_elements s' (S i) l) as [[s'' n] e']
    end.
    simpl in IH. subst e'. simpl.
    destruct (item_shape v), (forallb item_shape l); reflexivity.
Qed.

Lemma store_Items_error cur v :
  snd (GoJson.store_Items cur v) = negb (items_shape v).
Proof.
  destruct v; try reflexivity.
  unfold GoJson.store_Items, items_shape.
  pose proof (store_elements_error cur 0 elements) as E.
  destruct (GoJson.store_elements cur 0 elements) as [[s n] e].
  exact E.
Qed.

Lemma receipt_members_error members t err :
  snd (fold_left GoJson.receipt_member members (t, err))
  = err || negb (forallb receipt_member_shape members).
Proof.
  revert t err. induction members as [|kv members IH]; intros t err.
  - simpl. now rewrite orb_false_r.
  - cbn [fold_left forallb]. unfold GoJson.receipt_member at 2, receipt_member_shape at 1.
    destruct (GoJson.field_of_key GoJson.receipt_fields (fst kv)) as [[| | | |]|].
    1-4: match goal with |- context [GoJson.store_string ?c (snd ?k)] =>
           pose proof (store_string_error c (snd k)) as E;
           destruct (GoJson.store_string c (snd k)) as [s e];
           simpl in E; subst e; rewrite IH;
           destruct err, (string_shape (snd k)); reflexivity
         end.
    + pose proof (store_Items_error (GoJson.tg_Items t) (snd kv)) as E.
      destruct (GoJson.store_Items (GoJson.tg_Items t) (snd kv)) as [s e].
      simpl in E. subst e. rewrite IH.
      destruct err, (items_shape (snd kv)); reflexivity.
    + rewrite IH. reflexivity.
Qed.

Lemma store_Receipt_error cur v :
  snd (GoJson.store_Receipt cur v) = negb (receipt_shape v).
Proof.
  destruct v; try reflexivity.
  simpl. apply receipt_members_error.
Qed.

Lemma Decode_mistyped body :
  GoJson.Decode body = None <-> mistyped body = true.
Proof.
  destruct body as [|v]; simpl; [tauto|].
  pose proof (store_Receipt_error GoJson.zero_target v) as E.
  destruct (GoJson.store_Receipt GoJson.zero_target v) as [t err].
  simpl in E. subst err. destruct (receipt_shape v); simpl; split; congruence.
Qed.

(** ** A field no key names keeps its zero value *)

Lemma lacking_members_keep f members t err :
  lacks_field f members ->
  let t' := fst (fold_left GoJson.receipt_member members (t, err)) in
  match f with
  | GoJson.retailer => GoJson.tg_Retailer t' = GoJson.tg_Retailer t
  | GoJson.purchaseDate => GoJson.tg_PurchaseDate t' = GoJson.tg_PurchaseDate t
  | GoJson.purchaseTime => GoJson.tg_PurchaseTime t' = GoJson.tg_PurchaseTime t
  | GoJson.total => GoJson.tg_Total t' = GoJson.tg_Total t
  | GoJson.items => GoJson.tg_Items t' = GoJson.tg_Items t
  end.
Proof.
  revert t err. induction members as [|kv members IH]; intros t err Hl.
  - destruct f; reflexivity.
  - assert (Hkv : GoJson.field_of_key GoJson.receipt_fields (fst kv) <> Some f)
      by (apply Hl; left; reflexivity).
    assert (Hl' : lacks_field f members) by (intros kv' ?; apply Hl; right; assumption).
    cbn [fold_left]. cbv zeta.
    destruct (GoJson.receipt_member (t, err) kv) as [t1 err1] eqn:E.
    specialize (IH t1 err1 Hl'). cbv zeta in IH.
    assert (Hstep : match f with
                    | GoJson.retailer => GoJson.tg_Retailer t1 = GoJson.tg_Retailer t
                    | GoJson.purchaseDate => GoJson.tg_PurchaseDate t1 = GoJson.tg_PurchaseDate t
                    | GoJson.purchaseTime => GoJson.tg_PurchaseTime t1 = GoJson.tg_PurchaseTime t
                    | GoJson.total => GoJson.tg_Total t1 = GoJson.tg_Total t
                    | GoJson.items => GoJson.tg_Items t1 = GoJson.tg_Items t
                    end).
    { unfold GoJson.receipt_member in E.
      destruct (GoJson.field_of_key GoJson.receipt_fields (fst kv)) as [g|].
      - destruct g;
          [destruct (GoJson.store_string (GoJson.tg_Retailer t) (snd kv))
          |destruct (GoJson.store_string (GoJson.tg_PurchaseDate t) (snd kv))
          |destruct (GoJson.store_string (GoJson.tg_PurchaseTime t) (snd kv))
          |destruct (GoJson.store_string (GoJson.tg_Total t) (snd kv))
          |destruct (GoJson.store_Items (GoJson.tg_Items t) (snd kv))];
          injection E as <- <-; destruct f; try reflexivity; congruence.
      - injection E as <- <-. destruct f; reflexivity. }
    destruct f; congruence.
Qed.

Lemma Decode_object members receipt :
  GoJson.Decode (GoJson.Document (GoJson.JObject members)) = Some receipt ->
  receipt = GoJson.receipt_of
              (fst (fold_left GoJson.receipt_member members (GoJson.zero_target, false))).
Proof.
  simpl. destruct (fold_left GoJson.receipt_member members (GoJson.zero_target, false)) as [t err].
  destruct err; [discriminate|]. intros [= <-]. reflexivity.
Qed.

(** ** Submission *)

(** C2 (as amended): a body that is not a JSON value, or whose value has a
    field of the wrong type (a value that is not a string or [null] where a
    string is expected, not an array or [null] for the items, not an object or
    [null] for an item or for the receipt itself), is answered with the
    client error 400 and the store is left as it was.  Every other body is
    accepted: a record with the returned identifier and the points of the
    decoded receipt is stored, and a field that no key of the object names
    keeps its zero value (so a document without retailer, total or items is
    not rejected). *)
Theorem mistyped_rejected_sparse_accepted P uuid body receiptStore :
  (mistyped body = true ->
   processReceiptHandler P uuid body receiptStore
   = (http_Error "The receipt is invalid." StatusBadRequest, receiptStore))
  /\ (mistyped body = false ->
      exists receipt,
        GoJson.Decode body = Some receipt
        /\ processReceiptHandler P uuid body receiptStore
           = (id_response uuid,
              <[uuid := {| ID := uuid; Points := calculatePoints P receipt |}]> receiptStore)
        /\ forall members,
             body = GoJson.Document (GoJson.JObject members) ->
             (lacks_field GoJson.retailer members -> Retailer receipt = ""%string)
             /\ (lacks_field GoJson.total members -> Total receipt = ""%string)
             /\ (lacks_field GoJson.items members -> Items receipt = [])).
Proof.
  split.
  - intros H. apply Decode_mistyped in H. unfold processReceiptHandler. rewrite H. reflexivity.
  - intros H. destruct (GoJson.Decode body) as [receipt|] eqn:E.
    + exists receipt. split; [reflexivity|]. split.
      * unfold processReceiptHandler. rewrite E. reflexivity.
      * intros members ->. apply Decode_object in E. subst receipt.
        split; [|split]; intros Hl.
        -- apply (lacking_members_keep GoJson.retailer members GoJson.zero_target false Hl).
        -- apply (lacking_members_keep GoJson.total members GoJson.zero_target false Hl).
        -- pose proof (lacking_members_keep GoJson.items members GoJson.zero_target false Hl) as K.
           cbv zeta in K. unfold GoJson.receipt_of. cbn [Items]. rewrite K. reflexivity.
    + apply Decode_mistyped in E. congruence.
Qed.

(** A document whose [items] is a string is of the wrong shape: it is
    answered with the error and the empty store stays empty. *)
Lemma mistyped_rejected_witness :
  mistyped mistyped_document = true
  /\ processReceiptHandler amd64_latin1 "7fb1377b-b223-49d9-a31a-5a02701dd310"
       mistyped_document ∅
     = (http_Error "The receipt is invalid." StatusBadRequest, ∅).
Proof.
  assert (H : mistyped mistyped_document = true) by (vm_compute; reflexivity).
  exact (conj H
           (proj1 (mistyped_rejected_sparse_accepted amd64_latin1
                     "7fb1377b-b223-49d9-a31a-5a02701dd310" mistyped_document ∅) H)).
Defined.

(** C2 as stated fails: [sparse_document] is a well-formed object with no
    retailer, no total and no items, and submitting it to the empty store
    answers with the identifier and stores a record of 16 points (6 for
    the odd day, 10 for the afternoon), on every platform. *)
Lemma sparse_document_accepted :
  (lacks_field GoJson.retailer sparse_members
   /\ lacks_field GoJson.total sparse_members
   /\ lacks_field GoJson.items sparse_members)
  /\ forall P,
       processReceiptHandler P "7fb1377b-b223-49d9-a31a-5a02701dd310" sparse_document ∅
       = (id_response "7fb1377b-b223-49d9-a31a-5a02701dd310",
          {[ "7fb1377b-b223-49d9-a31a-5a02701dd310"%string :=
               {| ID := "7fb1377b-b223-49d9-a31a-5a02701dd310"; Points := 16 |} ]}).
Proof.
  split.
  - repeat split; intros kv [<- | [<- | []]]; vm_compute; discriminate.
  - intros P. unfold processReceiptHandler.
    replace (GoJson.Decode sparse_document)
      with (Some {| Retailer := ""; PurchaseDate := "2022-01-01"; PurchaseTime := "14:33";
                    Total := ""; Items := [] |}) by (vm_compute; reflexivity).
    replace (calculatePoints P _) with 16 by (vm_compute; reflexivity).
    reflexivity.
Qed.

(** ** Round trip *)

(** C3: whenever a submission is accepted, that is answered with an
    identifier [id], the body decoded to a receipt, [id] is the identifier
    generated for the request, and retrieving [id] from the store the
    submission left succeeds with exactly [calculatePoints] of that receipt
    (and leaves the store as it is). *)
Theorem submit_then_retrieve P uuid body receiptStore id receiptStore' :
  processReceiptHandler P uuid body receiptStore = (id_response id, receiptStore') ->
  exists receipt,
    GoJson.Decode body = Some receipt
    /\ id = uuid
    /\ getPointsHandler id receiptStore'
       = (points_response (calculatePoints P receipt), receiptStore').
Proof.
  unfold processReceiptHandler.
  destruct (GoJson.Decode body) as [receipt|]; [|discriminate].
  intros [= <- <-]. exists receipt. split; [reflexivity|]. split; [reflexivity|].
  unfold getPointsHandler. rewrite lookup_insert_eq. reflexivity.
Qed.

(** The fixture document is accepted by the empty store, and retrieving its
    identifier gives the 20 points of the fixture receipt. *)
Lemma submit_then_retrieve_witness :
  processReceiptHandler amd64_latin1 "7fb1377b-b223-49d9-a31a-5a02701dd310" fixture_document ∅
  = (id_response "7fb1377b-b223-49d9-a31a-5a02701dd310",
     {[ "7fb1377b-b223-49d9-a31a-5a02701dd310"%string :=
          {| ID := "7fb1377b-b223-49d9-a31a-5a02701dd310"; Points := 20 |} ]})
  /\ exists receipt,
       GoJson.Decode fixture_document = Some receipt
       /\ "7fb1377b-b223-49d9-a31a-5a02701dd310"%string = "7fb1377b-b223-49d9-a31a-5a02701dd310"%string
       /\ getPointsHandler "7fb1377b-b223-49d9-a31a-5a02701dd310"
            {[ "7fb1377b-b223-49d9-a31a-5a02701dd310"%string :=
                 {| ID := "7fb1377b-b223-49d9-a31a-5a02701dd310"; Points := 20 |} ]}
          = (points_response (calculatePoints amd64_latin1 receipt),
             {[ "7fb1377b-b223-49d9-a31a-5a02701dd310"%string :=
                  {| ID := "7fb1377b-b223-49d9-a31a-5a02701dd310"; Points := 20 |} ]}).
Proof.
  assert (H : processReceiptHandler amd64_latin1 "7fb1377b-b223-49d9-a31a-5a02701dd310"
                fixture_document ∅
              = (id_response "7fb1377b-b223-49d9-a31a-5a02701dd310",
                 {[ "7fb1377b-b223-49d9-a31a-5a02701dd310"%string :=
                      {| ID := "7fb1377b-b223-49d9-a31a-5a02701dd310"; Points := 20 |} ]})).
  { vm_compute. reflexivity. }
  exact (conj H (submit_then_retrieve _ _ _ _ _ _ H)).
Defined.

(** ** Retrieval *)

Lemma serve_keeps_ids P req receiptStore :
  ids_match_keys receiptStore -> ids_match_keys (snd (serve P req receiptStore)).
Proof.
  intros Inv. destruct req as [uuid body | id]; simpl.
  - unfold processReceiptHandler. destruct (GoJson.Decode body) as [receipt|]; [|exact Inv].
    simpl. intros k rec. rewrite lookup_insert.
    case_decide as E; [intros [= <-]; simpl; congruence | apply Inv].
  - unfold getPointsHandler. destruct (receiptStore !! id); exact Inv.
Qed.

Lemma run_keeps_ids P reqs receiptStore :
  ids_match_keys receiptStore -> ids_match_keys (run P reqs receiptStore).
Proof.
  revert receiptStore. induction reqs as [|req reqs IH]; intros st Inv.
  - exact Inv.
  - simpl. apply IH. apply serve_keeps_ids. exact Inv.
Qed.

(** C10: retrieval returns the store it was given, found or not; in every
    store the server reaches from the empty one, each record's [ID] is the
    key it is stored under, and this still holds after a retrieval, which
    leaves the reached store unchanged. *)
Theorem retrieval_leaves_store P :
  (forall id receiptStore, snd (getPointsHandler id receiptStore) = receiptStore)
  /\ (forall reqs, ids_match_keys (run P reqs ∅))
  /\ (forall reqs id,
        ids_match_keys (snd (getPointsHandler id (run P reqs ∅)))
        /\ run P (reqs ++ [GET_receipts_points id]) ∅ = run P reqs ∅).
Proof.
  assert (Hget : forall id (st : gmap string ProcessedReceipt), snd (getPointsHandler id st) = st).
  { intros id st. unfold getPointsHandler. destruct (st !! id); reflexivity. }
  assert (Hinv : forall reqs, ids_match_keys (run P reqs ∅)).
  { intros reqs. apply run_keeps_ids. intros id rec. rewrite lookup_empty. discriminate. }
  split; [exact Hget |]. split; [exact Hinv |].
  intros reqs id. split.
  - rewrite Hget. apply Hinv.
  - unfold run. rewrite fold_left_app. simpl. apply Hget.
Qed.

(** * Further properties of the program *)

(** ** The order of the items *)

Lemma wrap_wrap_add a b : GoInt.wrap (GoInt.wrap a + b) = GoInt.wrap (a + b).
Proof.
  unfold GoInt.wrap. f_equal.
  replace ((a + 2 ^ 63) mod 2 ^ 64 - 2 ^ 63 + b + 2 ^ 63)
    with ((a + 2 ^ 63) mod 2 ^ 64 + b) by lia.
  rewrite Zplus_mod_idemp_l. f_equal. lia.
Qed.

Lemma item_rule_points P tp item :
  GoInt.min_int <= tp <= GoInt.max_int ->
  item_rule P tp item = GoInt.wrap (tp + item_points P item).
Proof.
  intros Htp. unfold item_rule, item_points, description_counts, GoInt.rem.
  destruct (Z.rem (len (GoStrings.TrimSpace (ShortDescription item))) 3 =? 0).
  - destruct (GoStrconv.ParseFloat (Price item)) as [price|]; [reflexivity|].
    rewrite Z.add_0_r, wrap_in_range by exact Htp. reflexivity.
  - rewrite Z.add_0_r, wrap_in_range by exact Htp. reflexivity.
Qed.

Lemma items_fold_points P items tp :
  GoInt.min_int <= tp <= GoInt.max_int ->
  fold_left (item_rule P) items tp
  = GoInt.wrap (tp + fold_right Z.add 0 (map (item_points P) items)).
Proof.
  revert tp. induction items as [|item items IH]; intros tp Htp; cbn [fold_left map fold_right].
  - rewrite Z.add_0_r, wrap_in_range by exact Htp. reflexivity.
  - rewrite item_rule_points by exact Htp.
    rewrite IH by apply wrap_bounds. rewrite wrap_wrap_add. f_equal. lia.
Qed.

Lemma points_sum_permutation P items items' :
  Permutation items items' ->
  fold_right Z.add 0 (map (item_points P) items)
  = fold_right Z.add 0 (map (item_points P) items').
Proof.
  induction 1; cbn [map fold_right]; lia.
Qed.

Lemma pairs_rule_bounds tp r : GoInt.min_int <= pairs_rule tp r <= GoInt.max_int.
Proof. unfold pairs_rule, GoInt.add. apply wrap_bounds. Qed.

(** X3: the score does not depend on the order of the items: two receipts
    whose item lists are permutations of each other, and which agree on
    everything else, get the same points, wrap-around included. *)
Theorem points_independent_of_item_order P r items items' :
  Permutation items items' ->
  calculatePoints P (with_Items r items) = calculatePoints P (with_Items r items').
Proof.
  intros Hp. unfold calculatePoints.
  assert (Hr : retailer_rule P 0 (with_Items r items) = retailer_rule P 0 (with_Items r items'))
    by reflexivity.
  assert (Hpairs : forall tp, pairs_rule tp (with_Items r items) = pairs_rule tp (with_Items r items')).
  { intros tp. unfold pairs_rule. cbn [Items with_Items].
    rewrite (Permutation_length Hp). reflexivity. }
  assert (Hitems : forall tp, GoInt.min_int <= tp <= GoInt.max_int ->
            items_rule P tp (with_Items r items) = items_rule P tp (with_Items r items')).
  { intros tp Htp. unfold items_rule. cbn [Items with_Items].
    rewrite !items_fold_points by exact Htp.
    rewrite (points_sum_permutation P items items' Hp). reflexivity. }
  rewrite Hr.
  change (total_rules (retailer_rule P 0 (with_Items r items')) (with_Items r items))
    with (total_rules (retailer_rule P 0 (with_Items r items')) (with_Items r items')).
  rewrite Hpairs. rewrite Hitems by apply pairs_rule_bounds.
  reflexivity.
Qed.

(** The fixture's items in reverse order are a permutation of them. *)
Lemma points_independent_of_item_order_witness :
  Permutation (Items fixture_receipt) (rev (Items fixture_receipt))
  /\ calculatePoints amd64_latin1 (with_Items fixture_receipt (Items fixture_receipt))
     = calculatePoints amd64_latin1 (with_Items fixture_receipt (rev (Items fixture_receipt))).
Proof.
  assert (H : Permutation (Items fixture_receipt) (rev (Items fixture_receipt)))
    by (simpl; apply perm_swap).
  exact (conj H (points_independent_of_item_order amd64_latin1 fixture_receipt _ _ H)).
Defined.

(** ** The retailer rule *)

Lemma byte_of_ascii_range c : 0 <= byte_of_ascii c < 256.
Proof.
  unfold byte_of_ascii. pose proof (N_ascii_bounded c). lia.
Qed.

Lemma range_loop_ascii fuel p :
  (length p <= fuel)%nat ->
  forallb (fun b => b <? 0x80) p = true ->
  GoUtf8.range_loop fuel p = p.
Proof.
  revert p. induction fuel as [|fuel IH]; intros p Hl Ha.
  - destruct p; [reflexivity | simpl in Hl; lia].
  - destruct p as [|c p]; [reflexivity|].
    cbn [forallb] in Ha. apply andb_true_iff in Ha as [Hc Ha].
    cbn [GoUtf8.range_loop]. unfold GoUtf8.DecodeRune, GoUtf8.first.
    rewrite Hc. change (skipn 1 (c :: p)) with p.
    rewrite IH; [reflexivity | simpl in Hl; lia | exact Ha].
Qed.

Lemma bytes_length s : length (bytes s) = String.length s.
Proof.
  unfold bytes. rewrite length_map.
  induction s as [|c s IH]; simpl; [reflexivity | now rewrite IH].
Qed.

Lemma runes_ascii s : is_ascii s = true -> GoUtf8.runes s = bytes s.
Proof.
  intros H. unfold GoUtf8.runes. apply range_loop_ascii; [|exact H].
  rewrite bytes_length. lia.
Qed.

Lemma range_loop_length fuel p : (length (GoUtf8.range_loop fuel p) <= length p)%nat.
Proof.
  revert p. induction fuel as [|fuel IH]; intros p; [simpl; lia|].
  destruct p as [|c p]; [simpl; lia|].
  cbn [GoUtf8.range_loop].
  destruct (GoUtf8.DecodeRune (c :: p)) as [r size] eqn:E.
  assert (Hs : (1 <= size)%nat).
  { unfold GoUtf8.DecodeRune in E.
    repeat match type of E with
           | (match ?x with _ => _ end) = _ => destruct x
           | (if ?x then _ else _) = _ => destruct x
           end; injection E as <- <-; lia. }
  cbn [length]. specialize (IH (skipn size (c :: p))).
  rewrite length_skipn in IH. cbn [length] in IH. lia.
Qed.

Lemma filter_length_le {A} (f : A -> bool) l : (length (List.filter f l) <= length l)%nat.
Proof.
  induction l as [|x l IH]; simpl; [lia|]. destruct (f x); simpl; lia.
Qed.

Lemma retailer_count_bound P r : 0 <= retailer_count P r <= len (Retailer r).
Proof.
  unfold retailer_count, len. rewrite <- bytes_length.
  pose proof (filter_length_le
                (fun char => GoUnicode.IsLetter P char || GoUnicode.IsDigit P char)
                (GoUtf8.runes (Retailer r))).
  pose proof (range_loop_length (String.length (Retailer r)) (bytes (Retailer r))).
  unfold GoUtf8.runes in *. lia.
Qed.

Lemma alnum_ascii P c :
  0 <= c -> (c <? 0x80) = true ->
  GoUnicode.IsLetter P c || GoUnicode.IsDigit P c = ascii_alnum c.
Proof.
  intros H0 Hc. apply Z.ltb_lt in Hc.
  unfold GoUnicode.IsLetter, GoUnicode.IsDigit, GoUnicode.MaxLatin1, GoUnicode.latin1_letter,
    ascii_alnum, GoUnicode.between.
  replace (c <=? 255) with true by (symmetry; apply Z.leb_le; lia).
  replace (c =? 170) with false by (symmetry; apply Z.eqb_neq; lia).
  replace (c =? 181) with false by (symmetry; apply Z.eqb_neq; lia).
  replace (c =? 186) with false by (symmetry; apply Z.eqb_neq; lia).
  replace (192 <=? c) with false by (symmetry; apply Z.leb_gt; lia).
  replace (216 <=? c) with false by (symmetry; apply Z.leb_gt; lia).
  replace (248 <=? c) with false by (symmetry; apply Z.leb_gt; lia).
  cbn [andb orb]. rewrite !orb_false_r.
  destruct ((48 <=? c) && (c <=? 57)), ((65 <=? c) && (c <=? 90)), ((97 <=? c) && (c <=? 122));
    reflexivity.
Qed.

Lemma filter_alnum_ascii P p :
  Forall (fun b => 0 <= b) p ->
  forallb (fun b => b <? 0x80) p = true ->
  List.filter (fun char => GoUnicode.IsLetter P char || GoUnicode.IsDigit P char) p
  = List.filter ascii_alnum p.
Proof.
  induction 1 as [|c p H0 _ IH]; intros Ha; [reflexivity|].
  cbn [forallb] in Ha. apply andb_true_iff in Ha as [Hc Ha].
  cbn [List.filter]. rewrite (alnum_ascii P c H0 Hc), (IH Ha). reflexivity.
Qed.

Lemma bytes_nonneg s : Forall (fun b => 0 <= b) (bytes s).
Proof.
  unfold bytes. apply Forall_map. apply Forall_forall. intros c _.
  pose proof (byte_of_ascii_range c). lia.
Qed.

(** X1: for a retailer name no longer than the largest [int], the retailer
    rule started at zero ends between 0 and the name's length in bytes; when
    every byte of the name is ASCII it ends at exactly the number of ASCII
    letters and digits in the name, whatever the platform's Unicode tables. *)
Theorem retailer_rule_counts_alphanumerics P r :
  len (Retailer r) <= GoInt.max_int ->
  0 <= retailer_rule P 0 r <= len (Retailer r)
  /\ (is_ascii (Retailer r) = true ->
      retailer_rule P 0 r
      = Z.of_nat (length (List.filter ascii_alnum (bytes (Retailer r))))).
Proof.
  intros Hlen. pose proof (retailer_count_bound P r) as Hb.
  rewrite (retailer_rule_exact P r 0) by lia.
  split; [lia|]. intros Ha. unfold retailer_count.
  rewrite (runes_ascii _ Ha), (filter_alnum_ascii P _ (bytes_nonneg _) Ha). lia.
Qed.

(** "M&M Corner Market" is ASCII and has 14 letters and digits. *)
Lemma retailer_rule_counts_alphanumerics_witness :
  len (Retailer corner_market_receipt) <= GoInt.max_int
  /\ is_ascii (Retailer corner_market_receipt) = true
  /\ retailer_rule amd64_latin1 0 corner_market_receipt = 14.
Proof.
  assert (H1 : len (Retailer corner_market_receipt) <= GoInt.max_int)
    by (vm_compute; discriminate).
  assert (H2 : is_ascii (Retailer corner_market_receipt) = true) by (vm_compute; reflexivity).
  split; [exact H1|]. split; [exact H2|].
  exact (eq_trans
           (proj2 (retailer_rule_counts_alphanumerics amd64_latin1 corner_market_receipt H1) H2)
           eq_refl).
Defined.

(** ** The item-pair rule *)

(** X2: with [2k] or [2k + 1] items the pair rule adds exactly [5k] to a
    non-negative running total (when the sum fits an [int]): the odd item
    out adds nothing. *)
Theorem pairs_rule_counts_pairs tp r k :
  (Z.of_nat (length (Items r)) = 2 * k \/ Z.of_nat (length (Items r)) = 2 * k + 1) ->
  0 <= tp -> tp + 5 * k <= GoInt.max_int ->
  pairs_rule tp r = tp + 5 * k.
Proof.
  intros Hk Htp Hb.
  assert (E : Z.of_nat (length (Items r)) / 2 = k).
  { destruct Hk as [H | H]; rewrite H; symmetry;
      [apply Z.div_unique with (r := 0) | apply Z.div_unique with (r := 1)]; lia. }
  rewrite pairs_rule_exact by (rewrite ?E; lia). rewrite E. reflexivity.
Qed.

(** Three items make one pair: from 6 the rule goes to 11. *)
Lemma pairs_rule_counts_pairs_witness :
  (Z.of_nat (length (Items (with_Items fixture_receipt (pizza_item :: Items fixture_receipt)))) = 2 * 1
   \/ Z.of_nat (length (Items (with_Items fixture_receipt (pizza_item :: Items fixture_receipt)))) = 2 * 1 + 1)
  /\ pairs_rule 6 (with_Items fixture_receipt (pizza_item :: Items fixture_receipt)) = 6 + 5 * 1.
Proof.
  assert (H : Z.of_nat (length (Items (with_Items fixture_receipt (pizza_item :: Items fixture_receipt)))) = 2 * 1
              \/ Z.of_nat (length (Items (with_Items fixture_receipt (pizza_item :: Items fixture_receipt)))) = 2 * 1 + 1)
    by (right; reflexivity).
  split; [exact H|].
  apply (pairs_rule_counts_pairs 6 _ 1 H); [lia | vm_compute; discriminate].
Defined.

(** ** The odd-day rule *)

Lemma getnum_fixed s n rest :
  GoTime.getnum s true = Some (n, rest) ->
  exists c0 c1, s = c0 :: c1 :: rest /\ n = (c0 - 48) * 10 + (c1 - 48)
                /\ 48 <= c0 <= 57 /\ 48 <= c1 <= 57.
Proof.
  unfold GoTime.getnum, GoTime.isDigit.
  destruct s as [|c0 [|c1 s']]; cbn [nth_error nth negb]; try discriminate.
  - destruct ((48 <=? c0) && (c0 <=? 57)); discriminate.
  - destruct ((48 <=? c0) && (c0 <=? 57)) eqn:E0; cbn [negb]; [|discriminate].
    destruct ((48 <=? c1) && (c1 <=? 57)) eqn:E1; cbn [negb]; [|discriminate].
    apply andb_true_iff in E0, E1. intros [= <- <-].
    exists c0, c1. repeat split; lia.
Qed.

Lemma getnum_free s n rest :
  GoTime.getnum s false = Some (n, rest) ->
  (exists c0, s = c0 :: rest /\ n = c0 - 48 /\ 48 <= c0 <= 57)
  \/ (exists c0 c1, s = c0 :: c1 :: rest /\ n = (c0 - 48) * 10 + (c1 - 48)
                    /\ 48 <= c0 <= 57 /\ 48 <= c1 <= 57).
Proof.
  unfold GoTime.getnum, GoTime.isDigit.
  destruct s as [|c0 [|c1 s']]; cbn [nth_error nth negb]; try discriminate.
  - destruct ((48 <=? c0) && (c0 <=? 57)) eqn:E0; cbn [negb]; [|discriminate].
    apply andb_true_iff in E0. intros [= <- <-]. left. exists c0. repeat split; lia.
  - destruct ((48 <=? c0) && (c0 <=? 57)) eqn:E0; cbn [negb]; [|discriminate].
    apply andb_true_iff in E0.
    destruct ((48 <=? c1) && (c1 <=? 57)) eqn:E1; cbn [negb].
    + apply andb_true_iff in E1. intros [= <- <-]. right. exists c0, c1. repeat split; lia.
    + intros [= <- <-]. left. exists c0. repeat split; lia.
Qed.

Lemma skip_byte value c value' :
  GoTime.skip value [c] = Some value' -> value = c :: value'.
Proof.
  destruct value as [|v value0]; intros H; simpl in H; [discriminate|].
  destruct (v =? c) eqn:E; [|discriminate]. apply Z.eqb_eq in E.
  destruct value0; simpl in H; injection H as <-; congruence.
Qed.

Lemma long_year value year :
  (length value <? 4)%nat || negb (GoTime.isDigit value 0) = false ->
  GoTime.atoi (firstn 4 value) = Some year ->
  0 <= year <= 9999 /\ length value = (4 + length (skipn 4 value))%nat.
Proof.
  intros Hg Ha. apply orb_false_iff in Hg as [Hl Hd].
  apply Nat.ltb_ge in Hl. apply negb_false_iff in Hd.
  destruct value as [|a [|b [|c [|d rest]]]]; try (simpl in Hl; lia).
  split; [|reflexivity].
  unfold GoTime.isDigit in Hd. cbn in Hd. apply andb_true_iff in Hd as [Ha1 Ha2].
  apply Z.leb_le in Ha1, Ha2.
  unfold GoTime.atoi in Ha. cbn [firstn] in Ha.
  replace (a =? 45) with false in Ha by (symmetry; apply Z.eqb_neq; lia).
  replace (a =? 43) with false in Ha by (symmetry; apply Z.eqb_neq; lia).
  cbn [orb GoTime.leadingInt] in Ha.
  replace ((48 <=? a) && (a <=? 57)) with true in Ha
    by (symmetry; apply andb_true_iff; split; apply Z.leb_le; lia).
  destruct ((48 <=? b) && (b <=? 57)) eqn:Eb; [|discriminate Ha].
  destruct ((48 <=? c) && (c <=? 57)) eqn:Ec; [|discriminate Ha].
  destruct ((48 <=? d) && (d <=? 57)) eqn:Ed; [|discriminate Ha].
  apply andb_true_iff in Eb, Ec, Ed. injection Ha as <-. lia.
Qed.

Lemma daysIn_max m year : 1 <= m <= 12 -> 28 <= GoTime.daysIn m year <= 31.
Proof.
  intros Hm. unfold GoTime.daysIn.
  assert (m = 1 \/ m = 2 \/ m = 3 \/ m = 4 \/ m = 5 \/ m = 6 \/ m = 7 \/ m = 8
          \/ m = 9 \/ m = 10 \/ m = 11 \/ m = 12) as H by lia.
  destruct H as [-> | [-> | [-> | [-> | [-> | [-> | [-> | [-> | [-> | [-> | [-> | ->]]]]]]]]]]];
    try (vm_compute; split; discriminate).
  cbn. destruct (GoTime.isLeap year); lia.
Qed.

Lemma Parse_date_shape s t :
  GoTime.Parse GoTime.layout_2006_01_02 s = Some t ->
  len s = 10
  /\ 0 <= GoTime.t_year t <= 9999
  /\ 1 <= GoTime.t_month t <= 12
  /\ 1 <= GoTime.t_day t <= GoTime.daysIn (GoTime.t_month t) (GoTime.t_year t).
Proof.
  unfold GoTime.Parse, GoTime.layout_2006_01_02. cbn [GoTime.parse_chunks].
  unfold len. rewrite <- bytes_length.
  generalize (bytes s) as v. intros v.
  destruct ((length v <? 4)%nat || negb (GoTime.isDigit v 0)) eqn:Hg; [discriminate|].
  destruct (GoTime.atoi (firstn 4 v)) as [year|] eqn:Hy; [|discriminate].
  destruct (long_year v year Hg Hy) as [Hyear Hlen].
  destruct (GoTime.skip (skipn 4 v) [45]) as [v1|] eqn:H1; [|discriminate].
  apply skip_byte in H1.
  destruct (GoTime.getnum v1 true) as [[month v2]|] eqn:Hm; [|discriminate].
  apply getnum_fixed in Hm as (m0 & m1 & -> & -> & Hm0 & Hm1).
  destruct (((m0 - 48) * 10 + (m1 - 48) <=? 0) || (12 <? (m0 - 48) * 10 + (m1 - 48))) eqn:Hmr;
    [discriminate|].
  apply orb_false_iff in Hmr as [Hmr1 Hmr2]. apply Z.leb_gt in Hmr1. apply Z.ltb_ge in Hmr2.
  destruct (GoTime.skip v2 [45]) as [v3|] eqn:H2; [|discriminate].
  apply skip_byte in H2. subst v2.
  destruct (GoTime.getnum v3 true) as [[day v4]|] eqn:Hd; [|discriminate].
  apply getnum_fixed in Hd as (d0 & d1 & -> & -> & Hd0 & Hd1).
  destruct v4; [|discriminate].
  cbn [GoTime.with_day GoTime.with_month GoTime.with_year GoTime.t_month GoTime.t_day GoTime.t_year
       GoTime.t_hour GoTime.t_min].
  replace ((m0 - 48) * 10 + (m1 - 48) <? 0) with false by (symmetry; apply Z.ltb_ge; lia).
  replace ((d0 - 48) * 10 + (d1 - 48) <? 0) with false by (symmetry; apply Z.ltb_ge; lia).
  destruct (((d0 - 48) * 10 + (d1 - 48) <? 1)
            || (GoTime.daysIn ((m0 - 48) * 10 + (m1 - 48)) year <? (d0 - 48) * 10 + (d1 - 48)))
    eqn:Hdr; [discriminate|].
  apply orb_false_iff in Hdr as [Hdr1 Hdr2]. apply Z.ltb_ge in Hdr1, Hdr2.
  intros [= <-]. cbn.
  rewrite Hlen, H1. cbn [length]. repeat split; lia.
Qed.

(** X4: a purchase date that parses is exactly ten bytes long and names a
    real calendar day (month in 1..12, day between 1 and the length of that
    month in that year, at most 31), and the rule then adds 6 exactly when
    the day is odd; a date that does not parse, in particular one of any
    other length, adds nothing. *)
Theorem date_rule_calendar_dates tp r :
  (forall t,
      GoTime.Parse GoTime.layout_2006_01_02 (PurchaseDate r) = Some t ->
      len (PurchaseDate r) = 10
      /\ 1 <= GoTime.t_month t <= 12
      /\ 1 <= GoTime.Day t <= GoTime.daysIn (GoTime.t_month t) (GoTime.t_year t)
      /\ GoTime.daysIn (GoTime.t_month t) (GoTime.t_year t) <= 31
      /\ date_rule tp r = if Z.odd (GoTime.Day t) then GoInt.add tp 6 else tp)
  /\ (GoTime.Parse GoTime.layout_2006_01_02 (PurchaseDate r) = None -> date_rule tp r = tp)
  /\ (len (PurchaseDate r) <> 10 -> date_rule tp r = tp).
Proof.
  assert (Hnone : GoTime.Parse GoTime.layout_2006_01_02 (PurchaseDate r) = None ->
                  date_rule tp r = tp).
  { intros H. unfold date_rule. rewrite H. reflexivity. }
  split; [|split; [exact Hnone|]].
  - intros t Ht. destruct (Parse_date_shape _ _ Ht) as (Hl & Hy & Hm & Hd).
    pose proof (daysIn_max (GoTime.t_month t) (GoTime.t_year t) Hm).
    unfold GoTime.Day. repeat split; try lia.
    unfold date_rule. rewrite Ht. unfold GoInt.rem, GoTime.Day.
    rewrite Z.rem_mod_nonneg by lia.
    rewrite Zmod_odd. destruct (Z.odd (GoTime.t_day t)); reflexivity.
  - intros Hl. apply Hnone.
    destruct (GoTime.Parse GoTime.layout_2006_01_02 (PurchaseDate r)) as [t|] eqn:Ht; [|reflexivity].
    apply Parse_date_shape in Ht. tauto.
Qed.

(** The fixture's date is the first of January 2022: from 14 the rule goes
    to 20. *)
Lemma date_rule_calendar_dates_witness :
  GoTime.Parse GoTime.layout_2006_01_02 (PurchaseDate fixture_receipt)
  = Some {| GoTime.t_year := 2022; GoTime.t_month := 1; GoTime.t_day := 1;
            GoTime.t_hour := 0; GoTime.t_min := 0 |}
  /\ date_rule 14 fixture_receipt = 20.
Proof.
  assert (H : GoTime.Parse GoTime.layout_2006_01_02 (PurchaseDate fixture_receipt)
              = Some {| GoTime.t_year := 2022; GoTime.t_month := 1; GoTime.t_day := 1;
                        GoTime.t_hour := 0; GoTime.t_min := 0 |}) by (vm_compute; reflexivity).
  split; [exact H|].
  exact (eq_trans
           (proj2 (proj2 (proj2 (proj2 (proj1 (date_rule_calendar_dates 14 fixture_receipt) _ H)))))
           eq_refl).
Defined.

(** ** The shape of a purchase time *)

Lemma Parse_time_shape s t :
  GoTime.Parse GoTime.layout_15_04 s = Some t -> len s = 4 \/ len s = 5.
Proof.
  unfold GoTime.Parse, GoTime.layout_15_04. cbn [GoTime.parse_chunks].
  unfold len. rewrite <- bytes_length.
  generalize (bytes s) as v. intros v.
  destruct (GoTime.getnum v false) as [[hour v1]|] eqn:Hh; [|discriminate].
  destruct ((hour <? 0) || (24 <=? hour)); [discriminate|].
  destruct (GoTime.skip v1 [58]) as [v2|] eqn:H1; [|discriminate].
  apply skip_byte in H1. subst v1.
  destruct (GoTime.getnum v2 true) as [[min v3]|] eqn:Hm; [|discriminate].
  apply getnum_fixed in Hm as (m0 & m1 & -> & -> & _).
  destruct (((m0 - 48) * 10 + (m1 - 48) <? 0) || (60 <=? (m0 - 48) * 10 + (m1 - 48)));
    [discriminate|].
  destruct v3; [|discriminate]. intros _.
  apply getnum_free in Hh as [(c0 & -> & _) | (c0 & c1 & -> & _)]; cbn [length]; lia.
Qed.

(** X5: a purchase time that parses is four or five bytes long (the hour
    may have one digit), and the rule then adds 10 exactly when the hour is
    14 or 15; a string shorter than four bytes or longer than five adds
    nothing. *)
Theorem time_rule_hours tp r :
  (forall t,
      GoTime.Parse GoTime.layout_15_04 (PurchaseTime r) = Some t ->
      (len (PurchaseTime r) = 4 \/ len (PurchaseTime r) = 5)
      /\ time_rule tp r
         = if (GoTime.t_hour t =? 14) || (GoTime.t_hour t =? 15)
           then GoInt.add tp 10 else tp)
  /\ (len (PurchaseTime r) < 4 \/ 5 < len (PurchaseTime r) -> time_rule tp r = tp).
Proof.
  split.
  - intros t Ht. split; [apply (Parse_time_shape _ _ Ht)|].
    pose proof (Parse_15_04_range _ _ Ht) as [Hh Hm].
    unfold time_rule. rewrite Ht. unfold GoTime.Clock, GoInt.add at 1 2, GoInt.mul.
    rewrite (wrap_in_range (GoTime.t_hour t * 60)) by int_bounds.
    rewrite (wrap_in_range (GoTime.t_hour t * 60 + GoTime.t_min t)) by int_bounds.
    destruct (Z.eqb_spec (GoTime.t_hour t) 14) as [E14|E14];
    destruct (Z.eqb_spec (GoTime.t_hour t) 15) as [E15|E15]; cbn [orb];
    destruct (Z.leb_spec (14 * 60) (GoTime.t_hour t * 60 + GoTime.t_min t));
    destruct (Z.ltb_spec (GoTime.t_hour t * 60 + GoTime.t_min t) (16 * 60));
    cbn [andb]; try reflexivity; lia.
  - intros Hl. unfold time_rule.
    destruct (GoTime.Parse GoTime.layout_15_04 (PurchaseTime r)) as [t|] eqn:Ht; [|reflexivity].
    apply Parse_time_shape in Ht. lia.
Qed.

(** "9:05", with a one-digit hour, parses to five past nine and adds
    nothing. *)
Lemma time_rule_hours_witness :
  GoTime.Parse GoTime.layout_15_04 (PurchaseTime (with_PurchaseTime fixture_receipt "9:05"))
  = Some {| GoTime.t_year := 0; GoTime.t_month := 1; GoTime.t_day := 1;
            GoTime.t_hour := 9; GoTime.t_min := 5 |}
  /\ time_rule 20 (with_PurchaseTime fixture_receipt "9:05") = 20.
Proof.
  assert (H : GoTime.Parse GoTime.layout_15_04
                (PurchaseTime (with_PurchaseTime fixture_receipt "9:05"))
              = Some {| GoTime.t_year := 0; GoTime.t_month := 1; GoTime.t_day := 1;
                        GoTime.t_hour := 9; GoTime.t_min := 5 |}) by (vm_compute; reflexivity).
  split; [exact H|].
  exact (eq_trans
           (proj2 (proj1 (time_rule_hours 20 (with_PurchaseTime fixture_receipt "9:05")) _ H))
           eq_refl).
Defined.

(** ** Blanks around a description *)

Lemma bytes_app a b : bytes (a ++ b)%string = bytes a ++ bytes b.
Proof.
  unfold bytes. induction a as [|c a IH]; [reflexivity|].
  simpl. f_equal. exact IH.
Qed.

Lemma string_of_bytes_bytes s : string_of_bytes (bytes s) = s.
Proof.
  unfold string_of_bytes, bytes.
  induction s as [|c s IH]; [reflexivity|].
  simpl. f_equal; [|exact IH]. unfold ascii_of_byte, byte_of_ascii.
  rewrite N2Z.id. apply ascii_N_embedding.
Qed.

Lemma asciiSpace_ascii c : GoStrings.asciiSpace c = true -> (GoUtf8.RuneSelf <=? c) = false.
Proof.
  unfold GoStrings.asciiSpace, GoUnicode.between, GoUtf8.RuneSelf. intros H.
  apply Z.leb_gt. apply orb_true_iff in H as [H|H].
  - apply andb_true_iff in H as [_ H]. apply Z.leb_le in H. lia.
  - apply Z.eqb_eq in H. lia.
Qed.

Lemma solid_spec c :
  solid c = true -> (GoUtf8.RuneSelf <=? c) = false /\ GoStrings.asciiSpace c = false.
Proof.
  unfold solid, GoUtf8.RuneSelf. intros H. apply andb_true_iff in H as [H1 H2].
  apply Z.ltb_lt in H1. apply negb_true_iff in H2. split; [apply Z.leb_gt; lia | exact H2].
Qed.

Lemma trim_stop_blank post l :
  forallb GoStrings.asciiSpace post = true ->
  GoStrings.trim_stop (post ++ l) = GoStrings.trim_stop l.
Proof.
  induction post as [|c post IH]; intros H; [reflexivity|].
  cbn [forallb] in H. apply andb_true_iff in H as [Hc H].
  cbn [app GoStrings.trim_stop]. rewrite (asciiSpace_ascii c Hc), Hc. apply IH, H.
Qed.

Lemma trim_stop_solid z l :
  solid z = true -> GoStrings.trim_stop (z :: l) = rev (z :: l).
Proof.
  intros H. destruct (solid_spec z H) as [H1 H2].
  cbn [GoStrings.trim_stop]. rewrite H1, H2. reflexivity.
Qed.

Lemma forallb_rev {A} (f : A -> bool) l : forallb f (rev l) = forallb f l.
Proof.
  induction l as [|x l IH]; [reflexivity|].
  cbn [rev forallb]. rewrite forallb_app, IH. cbn. rewrite andb_true_r. apply andb_comm.
Qed.

Lemma trim_start_blank pre l :
  forallb GoStrings.asciiSpace pre = true ->
  GoStrings.trim_start (pre ++ l) = GoStrings.trim_start l.
Proof.
  induction pre as [|c pre IH]; intros H; [reflexivity|].
  cbn [forallb] in H. apply andb_true_iff in H as [Hc H].
  cbn [app GoStrings.trim_start]. rewrite (asciiSpace_ascii c Hc), Hc. apply IH, H.
Qed.

Lemma trim_start_solid a l :
  solid a = true -> GoStrings.trim_start (a :: l) = GoStrings.trim_stop (rev (a :: l)).
Proof.
  intros H. destruct (solid_spec a H) as [H1 H2].
  cbn [GoStrings.trim_start]. rewrite H1, H2. reflexivity.
Qed.

Lemma trim_start_padded pre core post a z :
  forallb GoStrings.asciiSpace pre = true ->
  forallb GoStrings.asciiSpace post = true ->
  hd_error core = Some a -> hd_error (rev core) = Some z ->
  solid a = true -> solid z = true ->
  GoStrings.trim_start (pre ++ core ++ post) = core.
Proof.
  intros Hpre Hpost Hhd Hlast Ha Hz.
  rewrite trim_start_blank by exact Hpre.
  destruct core as [|a' l]; [discriminate|]. injection Hhd as ->.
  destruct (rev (a :: l)) as [|z' l'] eqn:Er; [discriminate|]. injection Hlast as ->.
  cbn [app]. rewrite trim_start_solid by exact Ha.
  change (a :: l ++ post) with ((a :: l) ++ post).
  rewrite rev_app_distr, trim_stop_blank by (rewrite forallb_rev; exact Hpost).
  rewrite Er, trim_stop_solid by exact Hz.
  rewrite <- Er. apply rev_involutive.
Qed.

Lemma solid_ends_spec core :
  solid_ends core = true ->
  exists a z, hd_error (bytes core) = Some a /\ hd_error (rev (bytes core)) = Some z
              /\ solid a = true /\ solid z = true.
Proof.
  unfold solid_ends.
  destruct (bytes core) as [|a l]; [discriminate|].
  destruct (rev (a :: l)) as [|z l']; [discriminate|].
  intros H. apply andb_true_iff in H as [Ha Hz]. exists a, z. auto.
Qed.

Lemma TrimSpace_padded pre core post :
  ascii_blank pre = true -> ascii_blank post = true -> solid_ends core = true ->
  GoStrings.TrimSpace (pre ++ core ++ post)%string = core.
Proof.
  unfold ascii_blank, GoStrings.TrimSpace. intros Hpre Hpost Hcore.
  destruct (solid_ends_spec core Hcore) as (a & z & H1 & H2 & Ha & Hz).
  rewrite !bytes_app.
  rewrite (trim_start_padded (bytes pre) (bytes core) (bytes post) a z Hpre Hpost H1 H2 Ha Hz).
  apply string_of_bytes_bytes.
Qed.

Lemma TrimSpace_solid core : solid_ends core = true -> GoStrings.TrimSpace core = core.
Proof.
  unfold GoStrings.TrimSpace. intros Hcore.
  destruct (solid_ends_spec core Hcore) as (a & z & H1 & H2 & Ha & Hz).
  pose proof (trim_start_padded [] (bytes core) [] a z eq_refl eq_refl H1 H2 Ha Hz) as E.
  cbn [app] in E. rewrite app_nil_r in E. rewrite E.
  apply string_of_bytes_bytes.
Qed.

Lemma TrimSpace_blank s : ascii_blank s = true -> GoStrings.TrimSpace s = ""%string.
Proof.
  unfold ascii_blank, GoStrings.TrimSpace. intros H.
  rewrite <- (app_nil_r (bytes s)), trim_start_blank by exact H. reflexivity.
Qed.

(** X6: ASCII blanks before and after a description that starts and ends
    with an ASCII byte other than a blank do not change what the item
    adds. *)
Theorem blank_padding_keeps_bonus P tp pre core post price :
  ascii_blank pre = true -> ascii_blank post = true -> solid_ends core = true ->
  item_rule P tp {| ShortDescription := pre ++ core ++ post; Price := price |}
  = item_rule P tp {| ShortDescription := core; Price := price |}.
Proof.
  intros Hpre Hpost Hcore. unfold item_rule. cbn [ShortDescription Price].
  rewrite (TrimSpace_padded pre core post Hpre Hpost Hcore), (TrimSpace_solid core Hcore).
  reflexivity.
Qed.

(** The padded description of the receipt example: 24 bytes once trimmed,
    3 points at price "12.00". *)
Lemma blank_padding_keeps_bonus_witness :
  ascii_blank "   " = true /\ ascii_blank "  " = true
  /\ solid_ends "Klarbrunn 12-PK 12 FL OZ" = true
  /\ item_rule amd64_latin1 25
       {| ShortDescription := "   " ++ "Klarbrunn 12-PK 12 FL OZ" ++ "  "; Price := "12.00" |}
     = 28.
Proof.
  assert (H1 : ascii_blank "   " = true) by reflexivity.
  assert (H2 : ascii_blank "  " = true) by reflexivity.
  assert (H3 : solid_ends "Klarbrunn 12-PK 12 FL OZ" = true) by (vm_compute; reflexivity).
  split; [exact H1|]. split; [exact H2|]. split; [exact H3|].
  exact (eq_trans
           (blank_padding_keeps_bonus amd64_latin1 25 "   " "Klarbrunn 12-PK 12 FL OZ" "  "
              "12.00" H1 H2 H3)
           eq_refl).
Defined.

(** X7: a description that is empty or made of ASCII blanks only trims to
    the empty string, whose length 0 is a multiple of 3: the item earns the
    bonus of its price whenever the price parses. *)
Theorem blank_description_counts P tp item :
  ascii_blank (ShortDescription item) = true ->
  description_counts item = true
  /\ item_rule P tp item
     = match GoStrconv.ParseFloat (Price item) with
       | Some price =>
           GoInt.add tp (GoFloat.to_int P (GoMath.Ceil (GoFloat.mul price GoFloat.c0_2)))
       | None => tp
       end.
Proof.
  intros H. unfold description_counts, item_rule, GoInt.rem.
  rewrite (TrimSpace_blank _ H). split; reflexivity.
Qed.

(** Two spaces for a description, price "12.25": 3 points. *)
Lemma blank_description_counts_witness :
  ascii_blank (ShortDescription {| ShortDescription := "  "; Price := "12.25" |}) = true
  /\ item_rule amd64_latin1 0 {| ShortDescription := "  "; Price := "12.25" |} = 3.
Proof.
  assert (H : ascii_blank (ShortDescription {| ShortDescription := "  "; Price := "12.25" |}) = true)
    by reflexivity.
  split; [exact H|].
  rewrite (proj2 (blank_description_counts amd64_latin1 0
                    {| ShortDescription := "  "; Price := "12.25" |} H)).
  vm_compute. reflexivity.
Defined.

(** ** A round total is a multiple of a quarter *)

Lemma c0_25_value : GoFloat.c0_25 = S754_finite false 4503599627370496 (-54).
Proof. vm_compute. reflexivity. Qed.

Lemma shl_align_value mx ex ez :
  ez <= ex -> Zpos (fst (shl_align mx ex ez)) = Zpos mx * 2 ^ (ex - ez).
Proof.
  intros H. unfold shl_align.
  destruct (ez - ex) as [|d|d] eqn:E; cbn [fst].
  - replace (ex - ez) with 0 by lia. lia.
  - lia.
  - rewrite iter_xO_mul. replace (ex - ez) with (Zpos d) by lia. reflexivity.
Qed.

Lemma mod_pow2_multiple a k j : 0 <= j <= k -> (a * 2 ^ k) mod 2 ^ j = 0.
Proof.
  intros H. replace k with ((k - j) + j) by lia.
  rewrite Z.pow_add_r by lia. rewrite Z.mul_assoc. apply Z_mod_mult.
Qed.

(** A finite float that equals its truncation has no fractional bits: either
    its exponent is not negative, or its mantissa is a multiple of the power
    of two the exponent divides by. *)
Lemma eqb_Trunc_integer s m p :
  GoFloat.eqb (S754_finite s m (Zneg p)) (GoMath.Trunc (S754_finite s m (Zneg p))) = true ->
  exists c, Zpos m = c * 2 ^ Zpos p.
Proof.
  unfold GoMath.Trunc, GoFloat.truncZ.
  assert (Hpow : 0 < 2 ^ Zpos p) by (apply Z.pow_pos_nonneg; lia).
  assert (Hq : 0 <= Zpos m / 2 ^ Zpos p) by (apply Z.div_pos; lia).
  destruct (Zpos m / 2 ^ Zpos p) as [|c|c] eqn:Ec; [| |lia].
  - (* the truncation is zero *)
    replace (if s then - 0 else 0) with 0 by (destruct s; reflexivity).
    cbn. destruct s; discriminate.
  - assert (Hof : GoFloat.of_int_exact s (if s then - Zpos c else Zpos c)
                  = GoFloat.normalize_exact s c 0) by (destruct s; reflexivity).
    rewrite Hof.
    destruct (normalize_exact_finite s c 0) as (m' & e' & -> & [[-> ->] | (d & Hm & ->)]).
    + unfold GoFloat.eqb, SFeqb, SFcompare. destruct s; cbn; discriminate.
    + unfold GoFloat.eqb, SFeqb, SFcompare. intros H.
      assert (Hd : Zneg p = 0 - Zpos d /\ m = m').
      { destruct s.
        - destruct (Z.compare_spec (Zneg p) (0 - Zpos d)) as [E|E|E]; try discriminate H.
          split; [exact E|].
          destruct (Pos.compare_cont Eq m m') eqn:C; try discriminate H.
          apply Pos.compare_eq. exact C.
        - destruct (Z.compare_spec (Zneg p) (0 - Zpos d)) as [E|E|E]; try discriminate H.
          split; [exact E|].
          destruct (Pos.compare_cont Eq m m') eqn:C; try discriminate H.
          apply Pos.compare_eq. exact C. }
      destruct Hd as [Hd ->]. assert (d = p) by lia. subst d.
      exists (Zpos c). exact Hm.
Qed.

Lemma Mod_quarter_of_integer s m e :
  GoFloat.eqb (S754_finite s m e) (GoMath.Trunc (S754_finite s m e)) = true ->
  GoMath.Mod (S754_finite s m e) GoFloat.c0_25 = S754_zero s.
Proof.
  intros H. rewrite c0_25_value. unfold GoMath.Mod.
  assert (Hzero : forall X Y, X mod Y = 0 ->
            match X mod Y with
            | Zpos r => GoFloat.normalize_exact s r (Z.min e (-54))
            | _ => S754_zero s
            end = S754_zero s) by (intros X Y ->; reflexivity).
  apply Hzero.
  destruct (Z.le_gt_cases (-54) e) as [He|He].
  - (* the exponent of the total is at least that of 0.25 *)
    rewrite Z.min_r by lia.
    rewrite (shl_align_value m e (-54)) by lia.
    rewrite (shl_align_value 4503599627370496 (-54) (-54)) by lia.
    change (4503599627370496 * 2 ^ (-54 - -54)) with (2 ^ 52).
    destruct e as [|p|p].
    + apply mod_pow2_multiple. lia.
    + apply mod_pow2_multiple. lia.
    + destruct (eqb_Trunc_integer s m p H) as (c & ->).
      rewrite <- Z.mul_assoc, <- Z.pow_add_r by lia.
      apply mod_pow2_multiple. lia.
  - (* the total has more fractional bits than 0.25 *)
    rewrite Z.min_l by lia.
    rewrite (shl_align_value m e e) by lia.
    rewrite (shl_align_value 4503599627370496 (-54) e) by lia.
    destruct e as [|p|p]; [lia | lia |].
    destruct (eqb_Trunc_integer s m p H) as (c & ->).
    replace (Z.neg p - Z.neg p) with 0 by lia. rewrite Z.mul_1_r.
    change 4503599627370496 with (2 ^ 52).
    rewrite <- Z.pow_add_r by lia.
    apply mod_pow2_multiple. lia.
Qed.

(** X8: for a total that parses to a finite value, the two tests on the
    total can only go three ways: a round total earns 50 and also 25 (every
    binary64 integer is a multiple of 0.25), a total that is not round earns
    25 if it is a multiple of 0.25, and nothing otherwise.  50 without 25
    never happens. *)
Theorem round_total_earns_both tp r total :
  GoStrconv.ParseFloat (Total r) = Some total ->
  GoFloat.is_finite total = true ->
  total_rules tp r
  = if GoFloat.eqb total (GoMath.Trunc total) then GoInt.add (GoInt.add tp 50) 25
    else if GoFloat.eqb (GoMath.Mod total GoFloat.c0_25) GoFloat.zero then GoInt.add tp 25
    else tp.
Proof.
  intros Hp Hf. unfold total_rules. rewrite Hp.
  destruct (GoFloat.eqb total (GoMath.Trunc total)) eqn:Er; [|reflexivity].
  destruct total as [s | s | | s m e]; try discriminate Hf.
  - reflexivity.
  - rewrite (Mod_quarter_of_integer s m e Er). reflexivity.
Qed.

(** "1e3" is the round total 1000: from 6 the two rules go to 81. *)
Lemma round_total_earns_both_witness :
  GoStrconv.ParseFloat (Total (with_Total fixture_receipt "1e3"))
  = Some (S754_finite false 8796093022208000 (-43))
  /\ total_rules 6 (with_Total fixture_receipt "1e3") = 81.
Proof.
  assert (H : GoStrconv.ParseFloat (Total (with_Total fixture_receipt "1e3"))
              = Some (S754_finite false 8796093022208000 (-43))) by (vm_compute; reflexivity).
  split; [exact H|].
  exact (eq_trans (round_total_earns_both 6 (with_Total fixture_receipt "1e3") _ H eq_refl)
           eq_refl).
Defined.

(** ** A total that is not finite *)

(** X9: a total that parses to a value that is not finite earns 50 and no
    more when it is an infinity (which equals its own truncation, while its
    remainder is NaN), and nothing when it is NaN. *)
Theorem nonfinite_total_points tp r total :
  GoStrconv.ParseFloat (Total r) = Some total ->
  GoFloat.is_finite total = false ->
  total_rules tp r
  = match total with
    | S754_infinity _ => GoInt.add tp 50
    | _ => tp
    end.
Proof.
  intros Hp Hf. unfold total_rules. rewrite Hp.
  destruct total as [s | s | | s m e]; try discriminate Hf.
  - destruct s; reflexivity.
  - reflexivity.
Qed.

(** "Infinity" parses to the positive infinity: from 6 the rules go to
    56. *)
Lemma nonfinite_total_points_witness :
  GoStrconv.ParseFloat (Total (with_Total fixture_receipt "Infinity")) = Some (S754_infinity false)
  /\ total_rules 6 (with_Total fixture_receipt "Infinity") = 56.
Proof.
  assert (H : GoStrconv.ParseFloat (Total (with_Total fixture_receipt "Infinity"))
              = Some (S754_infinity false)) by (vm_compute; reflexivity).
  split; [exact H|].
  exact (eq_trans (nonfinite_total_points 6 (with_Total fixture_receipt "Infinity") _ H eq_refl)
           eq_refl).
Defined.


(** ** What a submission changes *)

(** X10: a submission, accepted or not, changes what is retrieved only for
    the identifier generated for it: any other identifier gets the response
    it would have got before. *)
Theorem submission_changes_one_identifier P uuid body receiptStore id :
  id <> uuid ->
  getPointsHandler id (snd (processReceiptHandler P uuid body receiptStore))
  = (fst (getPointsHandler id receiptStore),
     snd (processReceiptHandler P uuid body receiptStore)).
Proof.
  intros Hne. unfold processReceiptHandler.
  destruct (GoJson.Decode body) as [receipt|]; cbn [snd].
  - unfold getPointsHandler. rewrite lookup_insert_ne by congruence.
    destruct (receiptStore !! id); reflexivity.
  - unfold getPointsHandler. destruct (receiptStore !! id); reflexivity.
Qed.

(** Two different identifiers. *)
Lemma submission_changes_one_identifier_witness :
  "adb6b560-0eef-42bc-9d16-df48f30e89b2"%string <> "7fb1377b-b223-49d9-a31a-5a02701dd310"%string
  /\ getPointsHandler "adb6b560-0eef-42bc-9d16-df48f30e89b2"
       (snd (processReceiptHandler amd64_latin1 "7fb1377b-b223-49d9-a31a-5a02701dd310"
               fixture_document ∅))
     = (fst (getPointsHandler "adb6b560-0eef-42bc-9d16-df48f30e89b2" ∅),
        snd (processReceiptHandler amd64_latin1 "7fb1377b-b223-49d9-a31a-5a02701dd310"
               fixture_document ∅)).
Proof.
  assert (H : "adb6b560-0eef-42bc-9d16-df48f30e89b2"%string
              <> "7fb1377b-b223-49d9-a31a-5a02701dd310"%string) by discriminate.
  exact (conj H (submission_changes_one_identifier amd64_latin1 _ fixture_document ∅ _ H)).
Defined.

(** ** Where a stored record comes from *)

Lemma run_snoc P reqs req receiptStore :
  run P (reqs ++ [req]) receiptStore = snd (serve P req (run P reqs receiptStore)).
Proof. unfold run. rewrite fold_left_app. reflexivity. Qed.

(** X11: in the store reached from the empty one by any sequence of
    requests, every record was put there by a submission in the sequence that
    carried its identifier and whose body decoded to a receipt with these
    points; and an identifier that no submission of the sequence carried is
    answered "not found" (404), the store unchanged. *)
Theorem stored_records_come_from_submissions P reqs :
  (forall id rec,
      run P reqs ∅ !! id = Some rec ->
      exists body receipt,
        In (POST_receipts_process id body) reqs
        /\ GoJson.Decode body = Some receipt
        /\ rec = {| ID := id; Points := calculatePoints P receipt |})
  /\ (forall id,
        (forall body, ~ In (POST_receipts_process id body) reqs) ->
        getPointsHandler id (run P reqs ∅)
        = (http_Error "No receipt found for that ID." StatusNotFound, run P reqs ∅)).
Proof.
  assert (Hprov : forall id rec,
             run P reqs ∅ !! id = Some rec ->
             exists body receipt,
               In (POST_receipts_process id body) reqs
               /\ GoJson.Decode body = Some receipt
               /\ rec = {| ID := id; Points := calculatePoints P receipt |}).
  { induction reqs as [|req reqs IH] using rev_ind; intros id rec.
    - unfold run. cbn [fold_left]. rewrite lookup_empty. discriminate.
    - rewrite run_snoc. intros H.
      assert (Hold : run P reqs ∅ !! id = Some rec ->
                     exists body receipt,
                       In (POST_receipts_process id body) (reqs ++ [req])
                       /\ GoJson.Decode body = Some receipt
                       /\ rec = {| ID := id; Points := calculatePoints P receipt |}).
      { intros H'. destruct (IH id rec H') as (body & receipt & Hin & Hd & Hr).
        exists body, receipt. split; [apply in_or_app; left; exact Hin | auto]. }
      destruct req as [uuid body | id']; cbn [serve] in H.
      + unfold processReceiptHandler in H.
        destruct (GoJson.Decode body) as [receipt|] eqn:Hd; cbn [snd] in H.
        * rewrite lookup_insert in H. case_decide as E.
          -- subst uuid. injection H as <-. exists body, receipt.
             split; [apply in_or_app; right; left; reflexivity | auto].
          -- apply Hold, H.
        * apply Hold, H.
      + unfold getPointsHandler in H.
        destruct (run P reqs ∅ !! id'); cbn [snd] in H; apply Hold, H. }
  split; [exact Hprov|].
  intros id Hno. unfold getPointsHandler.
  destruct (run P reqs ∅ !! id) as [rec|] eqn:E; [|reflexivity].
  destruct (Hprov id rec E) as (body & _ & Hin & _). destruct (Hno body Hin).
Qed.

(** ** Unknown members *)

(** X12: a member of the submitted object whose key names no field of
    [Receipt] is skipped, whatever its value: the document decodes (or fails
    to decode) exactly as it does without that member. *)
Theorem unknown_members_are_ignored before key v after :
  GoJson.field_of_key GoJson.receipt_fields key = None ->
  GoJson.Decode (GoJson.Document (GoJson.JObject (before ++ (key, v) :: after)))
  = GoJson.Decode (GoJson.Document (GoJson.JObject (before ++ after))).
Proof.
  intros H. unfold GoJson.Decode, GoJson.store_Receipt.
  rewrite !fold_left_app. cbn [fold_left].
  destruct (fold_left GoJson.receipt_member before (GoJson.zero_target, false)) as [t err].
  unfold GoJson.receipt_member at 2. cbn [fst]. rewrite H. reflexivity.
Qed.

(** "cashier" names no field. *)
Lemma unknown_members_are_ignored_witness :
  GoJson.field_of_key GoJson.receipt_fields "cashier" = None
  /\ GoJson.Decode
       (GoJson.Document
          (GoJson.JObject (sparse_members ++ ("cashier"%string, GoJson.JNumber "7") :: [])))
     = GoJson.Decode (GoJson.Document (GoJson.JObject (sparse_members ++ []))).
Proof.
  assert (H : GoJson.field_of_key GoJson.receipt_fields "cashier" = None)
    by (vm_compute; reflexivity).
  exact (conj H (unknown_members_are_ignored sparse_members "cashier" (GoJson.JNumber "7") [] H)).
Defined.

(** ** A receipt written out and read back *)

Lemma store_item_document cur item :
  GoJson.store_Item cur (item_document item) = (item, false).
Proof.
  unfold item_document, GoJson.store_Item. cbn [fold_left].
  unfold GoJson.item_member. cbn [fst snd].
  replace (GoJson.field_of_key GoJson.item_fields "shortDescription")
    with (Some GoJson.shortDescription) by (vm_compute; reflexivity).
  replace (GoJson.field_of_key GoJson.item_fields "price")
    with (Some GoJson.price) by (vm_compute; reflexivity).
  cbn. destruct item; reflexivity.
Qed.

Lemma store_item_documents b l :
  GoJson.store_elements {| GoJson.backing := b; GoJson.slice_len := length b |}
    (length b) (map item_document l)
  = ({| GoJson.backing := b ++ l; GoJson.slice_len := length (b ++ l) |},
     length (b ++ l), false).
Proof.
  revert b. induction l as [|item l IH]; intros b.
  - cbn. rewrite app_nil_r. reflexivity.
  - cbn [map GoJson.store_elements GoJson.backing GoJson.slice_len].
    rewrite store_item_document.
    rewrite Nat.ltb_irrefl.
    replace (Nat.max (length b) (S (length b))) with (length (b ++ [item]))
      by (rewrite length_app; simpl; lia).
    replace (S (length b)) with (length (b ++ [item])) by (rewrite length_app; simpl; lia).
    rewrite IH. rewrite <- app_assoc. reflexivity.
Qed.

Lemma store_items_document items :
  GoJson.store_Items GoJson.nil_slice (GoJson.JArray (map item_document items))
  = ({| GoJson.backing := items;
        GoJson.slice_len := length items |}, false)
  \/ (items = [] /\
      GoJson.store_Items GoJson.nil_slice (GoJson.JArray (map item_document items))
      = (GoJson.nil_slice, false)).
Proof.
  unfold GoJson.store_Items.
  pose proof (store_item_documents [] items) as E. cbn [length app] in E.
  change {| GoJson.backing := []; GoJson.slice_len := 0 |} with GoJson.nil_slice in E.
  rewrite E. cbn [GoJson.slice_len]. rewrite Nat.ltb_irrefl.
  destruct items as [|item items]; [right; split; reflexivity | left; reflexivity].
Qed.

Lemma Decode_receipt_document r : GoJson.Decode (receipt_document r) = Some r.
Proof.
  unfold receipt_document, GoJson.Decode, GoJson.store_Receipt. cbn [fold_left].
  unfold GoJson.receipt_member. cbn [fst snd].
  replace (GoJson.field_of_key GoJson.receipt_fields "retailer")
    with (Some GoJson.retailer) by (vm_compute; reflexivity).
  replace (GoJson.field_of_key GoJson.receipt_fields "purchaseDate")
    with (Some GoJson.purchaseDate) by (vm_compute; reflexivity).
  replace (GoJson.field_of_key GoJson.receipt_fields "purchaseTime")
    with (Some GoJson.purchaseTime) by (vm_compute; reflexivity).
  replace (GoJson.field_of_key GoJson.receipt_fields "total")
    with (Some GoJson.total) by (vm_compute; reflexivity).
  replace (GoJson.field_of_key GoJson.receipt_fields "items")
    with (Some GoJson.items) by (vm_compute; reflexivity).
  cbn [GoJson.store_string GoJson.zero_target GoJson.tg_Retailer GoJson.tg_PurchaseDate
       GoJson.tg_PurchaseTime GoJson.tg_Total GoJson.tg_Items orb].
  destruct (store_items_document (Items r)) as [E | [E0 E]]; rewrite E; cbn [orb].
  - unfold GoJson.receipt_of, GoJson.slice_elements. cbn.
    rewrite firstn_all. destruct r; reflexivity.
  - unfold GoJson.receipt_of, GoJson.slice_elements. cbn.
    destruct r as [a b c d its]. cbn in E0. subst its. reflexivity.
Qed.

(** X13: every receipt written out as a JSON object with its five fields
    under their names decodes to that same receipt, so submitting the
    document and retrieving the identifier gives the points of the receipt
    that was written. *)
Theorem written_receipt_round_trip P uuid r receiptStore :
  GoJson.Decode (receipt_document r) = Some r
  /\ getPointsHandler uuid
       (snd (processReceiptHandler P uuid (receipt_document r) receiptStore))
     = (points_response (calculatePoints P r),
        <[uuid := {| ID := uuid; Points := calculatePoints P r |}]> receiptStore).
Proof.
  split; [apply Decode_receipt_document|].
  unfold processReceiptHandler. rewrite Decode_receipt_document. cbn [snd].
  unfold getPointsHandler. rewrite lookup_insert_eq. reflexivity.
Qed.

(** ** The keys of the store *)

(** X14: an accepted submission adds its identifier to the keys of the store
    and touches no other key: the store grows by one record when the
    identifier is new, and when the identifier is already there the old
    record is replaced by the new one and the store keeps its size. *)
Theorem accepted_submission_keys P uuid body (receiptStore : gmap string ProcessedReceipt) receipt :
  GoJson.Decode body = Some receipt ->
  let receiptStore' := snd (processReceiptHandler P uuid body receiptStore) in
  dom receiptStore' = {[uuid]} ∪ dom receiptStore
  /\ (receiptStore !! uuid = None -> size receiptStore' = S (size receiptStore))
  /\ (forall old, receiptStore !! uuid = Some old ->
        size receiptStore' = size receiptStore
        /\ receiptStore' !! uuid
           = Some {| ID := uuid; Points := calculatePoints P receipt |}).
Proof.
  intros Hd. unfold processReceiptHandler. rewrite Hd. cbn [snd]. cbv zeta.
  split; [apply dom_insert_L|]. split.
  - intros Hn. apply map_size_insert_None, Hn.
  - intros old Ho. split; [apply map_size_insert_Some; eauto | apply lookup_insert_eq].
Qed.

(** The fixture document submitted to the empty store. *)
Lemma accepted_submission_keys_witness :
  GoJson.Decode fixture_document = Some fixture_receipt
  /\ dom (snd (processReceiptHandler amd64_latin1 "7fb1377b-b223-49d9-a31a-5a02701dd310"
                 fixture_document ∅))
     = {[ "7fb1377b-b223-49d9-a31a-5a02701dd310"%string ]}
       ∪ dom (∅ : gmap string ProcessedReceipt).
Proof.
  assert (H : GoJson.Decode fixture_document = Some fixture_receipt) by (vm_compute; reflexivity).
  exact (conj H
           (proj1 (accepted_submission_keys amd64_latin1 "7fb1377b-b223-49d9-a31a-5a02701dd310"
                     fixture_document ∅ fixture_receipt H))).
Defined.
